(** * Errors-in-variables regression: the model built by
      [LinearRegressionwithErrors.fit]

    Shallow embedding of [regression/linear_model.py].  The Python method
    coerces two of its inputs with [np.atleast_2d], opens a [pm.Model()]
    context, declares nine named random variables in it, calls [pm.sample]
    and stores the returned trace on [self].

    - numpy arrays are a shape together with row-major data; the entries
      are rationals, no statement below depends on rounding;
    - Python arguments are numbers, plain (possibly nested) lists or arrays:
      only arrays have a [.shape] attribute;
    - the scoped model context is a stack of models, a model being the list
      of its declarations in program order;
    - instances live in a store indexed by references, so that returning
      [self] is returning a reference, not a value;
    - the modelling and sampling engine is external: an interface, whose
      operations may raise, and the promises it makes about a trace. *)

From Stdlib Require Import QArith.
From stdpp Require Import gmap strings list.

Local Open Scope string_scope.

(** ** Exceptions and results *)

Inductive exn : Type :=
| AttributeError
| IndexError
| ValueError
| TypeError
| SamplingError.

Inductive result (A : Type) : Type :=
| Ok (a : A)
| Raise (e : exn).
Arguments Ok {A} a.
Arguments Raise {A} e.

Definition result_bind {A B} (r : result A) (k : A → result B) : result B :=
  match r with
  | Ok a => k a
  | Raise e => Raise e
  end.

#[global] Instance result_fmap : FMap result := λ A B f r,
  match r with
  | Ok a => Ok (f a)
  | Raise e => Raise e
  end.

(** ** numpy arrays *)

Record ndarray : Type := mk_ndarray {
  shape : list nat;
  data : list Q
}.

Definition ndim (a : ndarray) : nat := length (shape a).

(** [a.T.shape]: transposition reverses the axes. *)
Definition T_shape (a : ndarray) : list nat := rev (shape a).

(** ** Python values received by [fit] *)

#[warnings="-register-all"] Inductive pyobj : Type :=
| PyNum (x : Q)
| PyList (items : list pyobj)
| PyNdarray (a : ndarray).

(** [o.shape]: defined on arrays only; numbers and lists raise. *)
Definition getattr_shape (o : pyobj) : result (list nat) :=
  match o with
  | PyNdarray a => Ok (shape a)
  | PyNum _ => Raise AttributeError
  | PyList _ => Raise AttributeError
  end.

(** [t[0]] on a tuple. *)
Definition getitem0 (t : list nat) : result nat :=
  match t with
  | n :: _ => Ok n
  | [] => Raise IndexError
  end.

Definition same_shape (s : list nat) (a : ndarray) : bool :=
  bool_decide (shape a = s).

(** Stacking the converted items of a list along a new leading axis.  An
    empty list is the 1-d array of length 0; items of unequal shapes are
    rejected (inhomogeneous shape). *)
Definition stack (parts : list ndarray) : result ndarray :=
  match parts with
  | [] => Ok (mk_ndarray [0] [])
  | a :: _ =>
      if forallb (same_shape (shape a)) parts
      then Ok (mk_ndarray (length parts :: shape a) (concat (map data parts)))
      else Raise ValueError
  end.

(** [np.asanyarray]: arrays pass through, a number is a 0-d array, a list
    is converted item by item and stacked. *)
Fixpoint np_asanyarray (o : pyobj) : result ndarray :=
  match o with
  | PyNum x => Ok (mk_ndarray [] [x])
  | PyNdarray a => Ok a
  | PyList items =>
      result_bind
        ((fix convert (l : list pyobj) : result (list ndarray) :=
            match l with
            | [] => Ok []
            | i :: l' =>
                result_bind (np_asanyarray i) (λ a,
                result_bind (convert l') (λ r, Ok (a :: r)))
            end) items)
        stack
  end.

(** [np.atleast_2d]: 0-d becomes (1, 1), 1-d of length N becomes (1, N),
    anything else is left as it is.  The data are not moved. *)
Definition promote_2d (a : ndarray) : ndarray :=
  match shape a with
  | [] => mk_ndarray [1; 1] (data a)
  | [n] => mk_ndarray [1; n] (data a)
  | _ :: _ :: _ => a
  end.

Definition np_atleast_2d (o : pyobj) : result ndarray :=
  result_bind (np_asanyarray o) (λ a, Ok (promote_2d a)).

(** ** Symbolic tensors and distributions of the modelling engine *)

Inductive tensor : Type :=
| TConst (c : pyobj)
| TRV (name : string)
| TT (t : tensor)
| TDot (a b : tensor)
| TAdd (a b : tensor).

(** [Normal] carries its keyword arguments [mu], [sd] and [tau]; a keyword
    that the call does not pass is [None]. *)
Inductive distribution : Type :=
| Flat
| HalfFlat
| Normal (mu : tensor) (sd : option tensor) (tau : option tensor).

Record RV : Type := mk_RV {
  rv_name : string;
  rv_dist : distribution;
  rv_shape : list nat;
  rv_observed : option pyobj
}.

(** A model is the list of its declarations, oldest first. *)
Definition Model : Type := list RV.

Definition model_var (name : string) (m : Model) : option RV :=
  find (λ v, String.eqb (rv_name v) name) m.

Definition free_RVs (m : Model) : list RV :=
  filter (λ v, rv_observed v = None) m.

Definition observed_RVs (m : Model) : list RV :=
  filter (λ v, rv_observed v ≠ None) m.

(** ** Shapes of symbolic tensors

    The engine works on symbolic tensors; what the program relies on is how
    their shapes combine.  [.T] reverses the axes, [dot] contracts the last
    axis of its first argument with the first axis of a 1-d or 2-d second
    argument, and [+] broadcasts. *)

(** Broadcasting of two shapes, written on the reversed shapes (trailing
    axes first). *)
Fixpoint broadcast_rev (s1 s2 : list nat) : option (list nat) :=
  match s1, s2 with
  | [], _ => Some s2
  | _, [] => Some s1
  | a :: s1', b :: s2' =>
      match broadcast_rev s1' s2' with
      | None => None
      | Some r =>
          if (a =? b)%nat then Some (a :: r)
          else if (a =? 1)%nat then Some (b :: r)
          else if (b =? 1)%nat then Some (a :: r)
          else None
      end
  end.

Definition broadcast_shapes (s1 s2 : list nat) : option (list nat) :=
  (λ r, rev r) <$> broadcast_rev (rev s1) (rev s2).

Definition dot_shape (s1 s2 : list nat) : option (list nat) :=
  match s1, s2 with
  | [], _ => Some s2
  | _, [] => Some s1
  | [n], [k] => if (n =? k)%nat then Some [] else None
  | [n], [k; m] => if (n =? k)%nat then Some [m] else None
  | [r; n], [k] => if (n =? k)%nat then Some [r] else None
  | [r; n], [k; m] => if (n =? k)%nat then Some [r; m] else None
  | _, _ => None
  end.

Fixpoint tensor_shape (m : Model) (t : tensor) : option (list nat) :=
  match t with
  | TConst c =>
      match np_asanyarray c with
      | Ok a => Some (shape a)
      | Raise _ => None
      end
  | TRV name => rv_shape <$> model_var name m
  | TT t' => (λ s, rev s) <$> tensor_shape m t'
  | TDot a b =>
      match tensor_shape m a, tensor_shape m b with
      | Some s1, Some s2 => dot_shape s1 s2
      | _, _ => None
      end
  | TAdd a b =>
      match tensor_shape m a, tensor_shape m b with
      | Some s1, Some s2 => broadcast_shapes s1 s2
      | _, _ => None
      end
  end.

(** ** Values of symbolic tensors

    What a tensor evaluates to once its variables have values, for the
    operations and the numbers of axes that the program uses: transposition
    of arrays of at most two axes, the product of a vector with a vector
    or with a matrix, and the sum of arrays of one shape or of an array
    and a scalar. *)

Definition Qsum (l : list Q) : Q := foldr Qplus 0%Q l.

Definition transpose (a : ndarray) : option ndarray :=
  match shape a with
  | [] | [_] => Some a
  | [r; c] =>
      Some (mk_ndarray [c; r]
              (flat_map (λ j, map (λ i, nth (i * c + j) (data a) 0%Q) (seq 0 r))
                 (seq 0 c)))
  | _ => None
  end.

Definition dot (a b : ndarray) : option ndarray :=
  match shape a, shape b with
  | [n], [k] =>
      if (n =? k)%nat
      then Some (mk_ndarray []
                   [Qsum (map (λ i, nth i (data a) 0 * nth i (data b) 0)%Q (seq 0 n))])
      else None
  | [n], [k; m] =>
      if (n =? k)%nat
      then Some (mk_ndarray [m]
                   (map (λ j, Qsum (map (λ i, nth i (data a) 0
                                              * nth (i * m + j) (data b) 0)%Q
                                        (seq 0 n)))
                      (seq 0 m)))
      else None
  | _, _ => None
  end.

Definition add_arrays (a b : ndarray) : option ndarray :=
  match shape a, shape b with
  | _, [] => Some (mk_ndarray (shape a) (map (λ x, x + nth 0 (data b) 0)%Q (data a)))
  | [], _ => Some (mk_ndarray (shape b) (map (λ x, nth 0 (data a) 0 + x)%Q (data b)))
  | s1, s2 =>
      if bool_decide (s1 = s2)
      then Some (mk_ndarray s1 (zip_with Qplus (data a) (data b)))
      else None
  end.

Fixpoint eval (env : string → option ndarray) (t : tensor) : option ndarray :=
  match t with
  | TConst c =>
      match np_asanyarray c with
      | Ok a => Some a
      | Raise _ => None
      end
  | TRV name => env name
  | TT t' => eval env t' ≫= transpose
  | TDot a b =>
      match eval env a, eval env b with
      | Some x, Some y => dot x y
      | _, _ => None
      end
  | TAdd a b =>
      match eval env a, eval env b with
      | Some x, Some y => add_arrays x y
      | _, _ => None
      end
  end.

(** Values for the three variables in the mean of [eta]. *)
Definition eta_env (slope ksi inter : ndarray) (name : string) : option ndarray :=
  if String.eqb name "slope" then Some slope
  else if String.eqb name "ksi" then Some ksi
  else if String.eqb name "inter" then Some inter
  else None.

(** ** The modelling and sampling engine

    The engine is external to the program.  The program asks it to build
    tensors, to register random variables in the model of the open context
    and to sample; the engine may refuse any of these by raising.  Its
    sampler owns some state of its own (random numbers). *)

Abbreviation MultiTrace := (gmap string (list ndarray)).

Abbreviation kwargs := (gmap string pyobj).

Inductive request : Type :=
| Register (v : RV)
| Build (t : tensor).

Class Engine : Type := {
  engine_state : Type;
  accept : Model → request → result unit;
  sample : Model → kwargs → engine_state → result MultiTrace * engine_state
}.

(** What the engine promises about a trace it returns: draws for every
    declared variable that is not observed, and draws of a half-flat
    variable inside its support. *)
Definition nonneg_draw (a : ndarray) : Prop :=
  Forall (λ q, (0 <= q)%Q) (data a).

Definition trace_covers (m : Model) (t : MultiTrace) : Prop :=
  ∀ v, v ∈ free_RVs m → is_Some (t !! rv_name v).

Definition trace_in_support (m : Model) (t : MultiTrace) : Prop :=
  ∀ v draws, v ∈ m → rv_dist v = HalfFlat →
    t !! rv_name v = Some draws → Forall nonneg_draw draws.

Class EngineContract (E : Engine) : Prop := {
  sample_covers : ∀ m kw g t g',
    sample m kw g = (Ok t, g') → trace_covers m t;
  sample_in_support : ∀ m kw g t g',
    sample m kw g = (Ok t, g') → trace_in_support m t
}.

(** ** Instances, the store and the state of a run *)

Abbreviation loc := nat.

Inductive attr : Type :=
| AttrTrace (t : MultiTrace)
| AttrObj (o : pyobj).

(** An instance is its attribute dictionary. *)
Abbreviation instance := (gmap string attr).

Section Program.

Context {E : Engine}.

Record world : Type := mk_world {
  heap : gmap loc instance;
  context : list Model;
  sampler_calls : list (Model * kwargs);
  engine : engine_state
}.

(** Computations of the program: they read and change the state and either
    return or raise.  The state reached when an exception is raised is
    kept: that is what a handler, or the exit of a [with] block, sees. *)
Definition Py (A : Type) : Type := world → result A * world.

Definition ret {A} (a : A) : Py A := λ w, (Ok a, w).

Definition raise {A} (e : exn) : Py A := λ w, (Raise e, w).

Definition bind {A B} (c : Py A) (k : A → Py B) : Py B := λ w,
  match c w with
  | (Ok a, w') => k a w'
  | (Raise e, w') => (Raise e, w')
  end.

Definition lift {A} (r : result A) : Py A := λ w, (r, w).

#[local] Instance Py_ret : MRet Py := @ret.
#[local] Instance Py_bind : MBind Py := λ A B k c, bind c k.

(** *** The model context: [with pm.Model():] *)

Definition push_model (w : world) : world :=
  mk_world (heap w) ([] :: context w) (sampler_calls w) (engine w).

Definition pop_model (w : world) : world :=
  mk_world (heap w) (tail (context w)) (sampler_calls w) (engine w).

(** Entering pushes a fresh model, leaving pops it, whether the block
    returns or raises; an exception of the block propagates. *)
Definition with_Model {A} (block : Py A) : Py A := λ w,
  let '(r, w') := block (push_model w) in (r, pop_model w').

(** A declaration the engine accepts is added to the model of the
    innermost context, and the symbolic variable that stands for it is
    returned. *)
Definition declare (v : RV) : Py tensor := λ w,
  match context w with
  | m :: rest =>
      match accept m (Register v) with
      | Ok _ =>
          (Ok (TRV (rv_name v)),
           mk_world (heap w) ((m ++ [v])%list :: rest) (sampler_calls w) (engine w))
      | Raise e => (Raise e, w)
      end
  | [] => (Raise TypeError, w)
  end.

Definition pm_Flat (name : string) (shape : list nat) : Py tensor :=
  declare (mk_RV name Flat shape None).

Definition pm_HalfFlat (name : string) (shape : list nat) : Py tensor :=
  declare (mk_RV name HalfFlat shape None).

Definition pm_Normal (name : string) (mu : tensor) (sd tau : option tensor)
    (observed : option pyobj) (shape : list nat) : Py tensor :=
  declare (mk_RV name (Normal mu sd tau) shape observed).

(** A tensor operation: the engine builds the result or refuses. *)
Definition build (t : tensor) : Py tensor := λ w,
  match accept (hd [] (context w)) (Build t) with
  | Ok _ => (Ok t, w)
  | Raise e => (Raise e, w)
  end.

Definition T (t : tensor) : Py tensor := build (TT t).

Definition tt_dot (a b : tensor) : Py tensor := build (TDot a b).

Definition add (a b : tensor) : Py tensor := build (TAdd a b).

(** [pm.sample], called with the unpacked keyword dictionary: the sampler
    of the engine runs on the model of the innermost context; the call is
    recorded. *)
Definition pm_sample (kw : kwargs) : Py MultiTrace := λ w,
  match context w with
  | m :: _ =>
      let '(r, g) := sample m kw (engine w) in
      (r, mk_world (heap w) (context w) (sampler_calls w ++ [(m, kw)])%list g)
  | [] => (Raise TypeError, w)
  end.

(** [self.name = value] *)
Definition setattr (self : loc) (name : string) (value : attr) : Py unit := λ w,
  (Ok (),
   mk_world (<[self := <[name := value]> (default ∅ (heap w !! self))]> (heap w))
            (context w) (sampler_calls w) (engine w)).

Definition getattr (self : loc) (name : string) (w : world) : option attr :=
  heap w !! self ≫= λ o, o !! name.

(** *** [LinearRegressionwithErrors.fit] *)

(** The default of the parameter [sample_kwargs]. *)
Definition default_sample_kwargs : kwargs :=
  <["draws" := PyNum 1000]> (<["target_accept" := PyNum (9 # 10)]> ∅).

(** The body of the [with pm.Model():] block; the arguments of a call are
    computed from left to right before the call. *)
Definition fit_block (self : loc) (X : ndarray) (y y_error : pyobj)
    (x_error : ndarray) (sample_kwargs : kwargs) : Py unit :=
  (* slope and intercept of eta-ksi relation *)
  d ← lift (getitem0 (shape X));
  slope ← pm_Flat "slope" [d];
  inter ← pm_Flat "inter" [];
  (* intrinsic scatter of eta-ksi relation *)
  int_std ← pm_HalfFlat "int_std" [];
  d ← lift (getitem0 (shape X));
  tau ← pm_HalfFlat "tau" [d];
  (* intrinsic ksi *)
  d ← lift (getitem0 (shape X));
  mu ← pm_Normal "mu" (TConst (PyNum 0)) (Some tau) None None [d];
  ksi ← pm_Normal "ksi" mu None (Some tau) None (T_shape X);
  (* intrinsic eta-ksi linear relation + intrinsic scatter *)
  slope_T ← T slope;
  ksi_T ← T ksi;
  product ← tt_dot slope_T ksi_T;
  mean ← add product inter;
  y_shape ← lift (getattr_shape y);
  eta ← pm_Normal "eta" mean (Some int_std) None None y_shape;
  (* observed xi, yi *)
  ksi_T ← T ksi;
  x ← pm_Normal "xi" ksi_T (Some (TConst (PyNdarray x_error))) None
        (Some (PyNdarray X)) (shape X);
  y_shape ← lift (getattr_shape y);
  y' ← pm_Normal "yi" eta (Some (TConst y_error)) None (Some y) y_shape;
  trace ← pm_sample sample_kwargs;
  setattr self "trace" (AttrTrace trace).

Definition fit (self : loc) (X y y_error x_error : pyobj)
    (sample_kwargs : kwargs) : Py loc :=
  X ← lift (np_atleast_2d X);
  x_error ← lift (np_atleast_2d x_error);
  with_Model (fit_block self X y y_error x_error sample_kwargs);;
  mret self.

(** *** Reading a run *)

(** The model of the innermost context once the block of [fit] has run,
    to its end or to the exception it raises. *)
Definition block_model (self : loc) (X : ndarray) (y y_error : pyobj)
    (x_error : ndarray) (kw : kwargs) (w : world) : Model :=
  hd [] (context (fit_block self X y y_error x_error kw (push_model w)).2).

(** [fit] hands the model [m] to the sampler: one call more, on [m]. *)
Definition fit_samples (self : loc) (X y y_error x_error : pyobj)
    (kw : kwargs) (w : world) (m : Model) : Prop :=
  sampler_calls (fit self X y y_error x_error kw w).2
  = (sampler_calls w ++ [(m, kw)])%list.

Definition after_sample (w : world) (m : Model) (kw : kwargs)
    (g : engine_state) : world :=
  mk_world (heap w) (context w) (sampler_calls w ++ [(m, kw)])%list g.

Definition store_trace (self : loc) (t : MultiTrace) (w : world) : world :=
  mk_world (<[self := <["trace" := AttrTrace t]> (default ∅ (heap w !! self))]> (heap w))
           (context w) (sampler_calls w) (engine w).

(** The engine's answer to a sequence of requests made in a model: the
    first refusal, if there is one. *)
Fixpoint accepts_from (m : Model) (rs : list request) : result unit :=
  match rs with
  | [] => Ok ()
  | r :: rs' =>
      match accept m r with
      | Ok _ =>
          accepts_from
            (match r with Register v => (m ++ [v])%list | Build _ => m end) rs'
      | Raise e => Raise e
      end
  end.

Definition accepts (rs : list request) : result unit := accepts_from [] rs.

End Program.

(** ** The requests of [fit], in closed form *)

(** The six declarations made before the shape of [y] is read. *)
Definition latent_declarations (X : ndarray) : Model :=
  let d := hd 0%nat (shape X) in
  [ mk_RV "slope" Flat [d] None;
    mk_RV "inter" Flat [] None;
    mk_RV "int_std" HalfFlat [] None;
    mk_RV "tau" HalfFlat [d] None;
    mk_RV "mu" (Normal (TConst (PyNum 0)) (Some (TRV "tau")) None) [d] None;
    mk_RV "ksi" (Normal (TRV "mu") None (Some (TRV "tau"))) (T_shape X) None ].

Definition eta_mean : tensor :=
  TAdd (TDot (TT (TRV "slope")) (TT (TRV "ksi"))) (TRV "inter").

Definition eta_declaration (y_shape : list nat) : RV :=
  mk_RV "eta" (Normal eta_mean (Some (TRV "int_std")) None) y_shape None.

Definition xi_declaration (X x_error : ndarray) : RV :=
  mk_RV "xi" (Normal (TT (TRV "ksi")) (Some (TConst (PyNdarray x_error))) None)
    (shape X) (Some (PyNdarray X)).

Definition yi_declaration (y : pyobj) (y_shape : list nat) (y_error : pyobj) : RV :=
  mk_RV "yi" (Normal (TRV "eta") (Some (TConst y_error)) None) y_shape (Some y).

Definition declarations (X : ndarray) (y : pyobj) (y_shape : list nat)
    (y_error : pyobj) (x_error : ndarray) : Model :=
  (latent_declarations X
   ++ [ eta_declaration y_shape; xi_declaration X x_error;
        yi_declaration y y_shape y_error ])%list.

(** What [fit] asks of the engine up to the point where it reads the shape
    of [y]: the six declarations and the tensors of the mean of [eta]. *)
Definition requests_before_y (X : ndarray) : list request :=
  ((Register <$> latent_declarations X)
   ++ [ Build (TT (TRV "slope"));
        Build (TT (TRV "ksi"));
        Build (TDot (TT (TRV "slope")) (TT (TRV "ksi")));
        Build eta_mean ])%list.

(** And from there to the call of the sampler. *)
Definition requests_from_y (X : ndarray) (y : pyobj) (y_shape : list nat)
    (y_error : pyobj) (x_error : ndarray) : list request :=
  [ Register (eta_declaration y_shape);
    Build (TT (TRV "ksi"));
    Register (xi_declaration X x_error);
    Register (yi_declaration y y_shape y_error) ].

Definition requests (X : ndarray) (y : pyobj) (y_shape : list nat)
    (y_error : pyobj) (x_error : ndarray) : list request :=
  (requests_before_y X ++ requests_from_y X y y_shape y_error x_error)%list.

(** ** An engine to run the program with

    It accepts every request; its sampler returns one draw more at every
    call, all zeros, for each free variable of the model.  It keeps the
    engine's promises. *)

Definition zeros (s : list nat) : ndarray :=
  mk_ndarray s (replicate (foldr Nat.mul 1%nat s) 0%Q).

Definition zero_trace (n : nat) (m : Model) : MultiTrace :=
  list_to_map ((λ v, (rv_name v, replicate n (zeros (rv_shape v)))) <$> free_RVs m).

Definition zero_engine : Engine :=
  {| engine_state := nat;
     accept m r := Ok ();
     sample m kw g := (Ok (zero_trace (S g) m), S g) |}.

(** An engine that checks shapes when a tensor is built or a variable is
    registered: the tensors of a declaration must have a shape, and the
    mean of a Normal must broadcast to the declared shape. *)
Definition has_shape (m : Model) (t : tensor) : bool :=
  bool_decide (is_Some (tensor_shape m t)).

Definition mean_fits (m : Model) (mu : tensor) (s : list nat) : bool :=
  match tensor_shape m mu with
  | Some s' => bool_decide (broadcast_shapes s' s = Some s)
  | None => false
  end.

Definition shape_check (m : Model) (r : request) : result unit :=
  match r with
  | Build t => if has_shape m t then Ok () else Raise ValueError
  | Register v =>
      match rv_dist v with
      | Normal mu _ _ =>
          if mean_fits m mu (rv_shape v) then Ok () else Raise ValueError
      | _ => Ok ()
      end
  end.

Definition strict_engine : Engine :=
  {| engine_state := nat;
     accept := shape_check;
     sample m kw g := (Ok (zero_trace (S g) m), S g) |}.

(** ** The two keywords of [Normal] for its dispersion

    The engine reads [sd] as a standard deviation and [tau] as a precision;
    passing both is refused.  The variance that each reading gives: *)
Definition normal_variance (sd tau : option Q) : option Q :=
  match tau, sd with
  | None, None => Some 1%Q
  | None, Some s => Some (s * s)%Q
  | Some t, None => Some (/ t)%Q
  | Some _, Some _ => None
  end.

(** ** Inputs to run the program on *)

Definition tenth : Q := 1 # 10.

(** One covariate, five observations, given as plain lists where the
    program accepts them. *)
Definition X_five : pyobj := PyList (PyNum <$> [1; 2; 3; 4; 5]%Q).
Definition y_five : pyobj :=
  PyNdarray (mk_ndarray [5] [21 # 10; 39 # 10; 62 # 10; 78 # 10; 101 # 10]%Q).
Definition y_error_five : pyobj := PyNdarray (mk_ndarray [5] (replicate 5 tenth)).
Definition x_error_five : pyobj := PyList (PyNum <$> replicate 5 tenth).

(** Two covariates, five observations. *)
Definition X_2x5 : pyobj :=
  PyNdarray (mk_ndarray [2; 5] [1; 2; 3; 4; 5; 5; 4; 3; 2; 1]%Q).
Definition x_error_2x5 : pyobj := PyNdarray (mk_ndarray [2; 5] (replicate 10 tenth)).

(** The same response as a plain list. *)
Definition y_five_list : list pyobj :=
  PyNum <$> [21 # 10; 39 # 10; 62 # 10; 78 # 10; 101 # 10]%Q.

(** Two covariates and ten observations against nine responses. *)
Definition X_2x10 : pyobj := PyNdarray (mk_ndarray [2; 10] (replicate 20 1%Q)).
Definition x_error_2x10 : pyobj := PyNdarray (mk_ndarray [2; 10] (replicate 20 tenth)).
Definition y_nine : pyobj := PyNdarray (mk_ndarray [9] (replicate 9 2%Q)).
Definition y_error_nine : pyobj := PyNdarray (mk_ndarray [9] (replicate 9 tenth)).

(** Errors with a negative entry. *)
Definition y_error_negative : pyobj :=
  PyNdarray (mk_ndarray [5] [tenth; (-1 # 10)%Q; tenth; tenth; tenth]).
Definition x_error_negative : pyobj :=
  PyList (PyNum <$> [(-1 # 10)%Q; tenth; tenth; tenth; tenth]).

Definition has_negative (a : ndarray) : bool :=
  existsb (λ q, negb (Qle_bool 0 q)) (data a).

(** A store with one regressor, at reference 7, not fitted yet. *)
Definition initial_world : @world zero_engine :=
  @mk_world zero_engine {[ 7%nat := ∅ ]} [] [] 0%nat.

Definition strict_world : @world strict_engine :=
  @mk_world strict_engine {[ 7%nat := ∅ ]} [] [] 0%nat.

(** ** The outcome of a call, in closed form

    What [fit] does, read off its text: the two coercions, the requests to
    the engine up to the reading of the shape of [y], that reading, the
    remaining requests, the sampler, the assignment. *)

Section Outcome.

Context {E : Engine}.

Definition fit_outcome (self : loc) (X y y_error x_error : pyobj)
    (kw : kwargs) (w : world) : result loc * world :=
  match np_atleast_2d X with
  | Raise e => (Raise e, w)
  | Ok X' =>
      match np_atleast_2d x_error with
      | Raise e => (Raise e, w)
      | Ok x_error' =>
          match accepts (requests_before_y X'), y with
          | Raise e, _ => (Raise e, w)
          | Ok _, PyNum _ => (Raise AttributeError, w)
          | Ok _, PyList _ => (Raise AttributeError, w)
          | Ok _, PyNdarray ya =>
              let m := declarations X' y (shape ya) y_error x_error' in
              match accepts (requests X' y (shape ya) y_error x_error') with
              | Raise e => (Raise e, w)
              | Ok _ =>
                  match sample m kw (engine w) with
                  | (Ok t, g) =>
                      (Ok self, store_trace self t (after_sample w m kw g))
                  | (Raise e, g) => (Raise e, after_sample w m kw g)
                  end
              end
          end
      end
  end.


End Outcome.


(** ** Well-formed arrays *)

Definition size (s : list nat) : nat := foldr Nat.mul 1%nat s.

(** As many entries as the shape says. *)
Definition wf_array (a : ndarray) : Prop := length (data a) = size (shape a).

(** A Python value all of whose arrays are well formed. *)
Fixpoint wf_pyobj (o : pyobj) : Prop :=
  match o with
  | PyNum _ => True
  | PyNdarray a => wf_array a
  | PyList items =>
      (fix all (l : list pyobj) : Prop :=
         match l with
         | [] => True
         | i :: l' => wf_pyobj i ∧ all l'
         end) items
  end.

(** The conversion of the items of a list, as [np_asanyarray] does it. *)
Definition convert_all : list pyobj → result (list ndarray) :=
  fix convert (l : list pyobj) : result (list ndarray) :=
    match l with
    | [] => Ok []
    | i :: l' =>
        result_bind (np_asanyarray i) (λ a,
        result_bind (convert l') (λ r, Ok (a :: r)))
    end.

(** ** Scoping of the declarations *)

(** The variables a tensor mentions. *)
Fixpoint tensor_names (t : tensor) : list string :=
  match t with
  | TConst _ => []
  | TRV name => [name]
  | TT t' => tensor_names t'
  | TDot a b => (tensor_names a ++ tensor_names b)%list
  | TAdd a b => (tensor_names a ++ tensor_names b)%list
  end.

Definition option_names (o : option tensor) : list string :=
  match o with
  | Some t => tensor_names t
  | None => []
  end.

Definition dist_names (d : distribution) : list string :=
  match d with
  | Flat | HalfFlat => []
  | Normal mu sd tau => (tensor_names mu ++ option_names sd ++ option_names tau)%list
  end.

(** Every declaration has a new name and mentions only variables declared
    before it. *)
Fixpoint well_scoped (declared : list string) (m : Model) : bool :=
  match m with
  | [] => true
  | v :: m' =>
      negb (bool_decide (rv_name v ∈ declared))
      && forallb (λ n, bool_decide (n ∈ declared)) (dist_names (rv_dist v))
      && well_scoped (declared ++ [rv_name v])%list m'
  end.

(** ** Coercion *)

Lemma promote_2d_shape a :
  ∃ d n rest, shape (promote_2d a) = d :: n :: rest.
Proof.
  unfold promote_2d. destruct a as [[|k [|k' s]] dt]; simpl; eauto.
Qed.

Lemma np_atleast_2d_inv o X :
  np_atleast_2d o = Ok X →
  ∃ a, np_asanyarray o = Ok a ∧ X = promote_2d a.
Proof.
  unfold np_atleast_2d. destruct (np_asanyarray o) as [a|e]; simpl; [|discriminate].
  intros [= <-]. eauto.
Qed.

Lemma np_atleast_2d_shape o X :
  np_atleast_2d o = Ok X → ∃ d n rest, shape X = d :: n :: rest.
Proof.
  intros (a & _ & ->)%np_atleast_2d_inv. apply promote_2d_shape.
Qed.


(** ** Transposed data *)

Lemma nth_flat_map_blocks {A} (f : nat → list A) (N D a i j : nat) (d : A) :
  (∀ i, length (f i) = N) →
  (i < D)%nat → (j < N)%nat →
  nth (i * N + j) (flat_map f (seq a D)) d = nth j (f (a + i)%nat) d.
Proof.
  intros Hlen. revert a i. induction D as [|D IH]; intros a i Hi Hj; [lia|].
  simpl. destruct i as [|i].
  - simpl. rewrite Nat.add_0_r. apply app_nth1. by rewrite Hlen.
  - rewrite app_nth2 by (rewrite Hlen; simpl; lia).
    rewrite Hlen.
    replace (S i * N + j - N)%nat with (i * N + j)%nat by (simpl; lia).
    rewrite IH by lia. f_equal. f_equal. lia.
Qed.

Lemma nth_map_seq {A} (g : nat → A) (N j : nat) (d : A) :
  (j < N)%nat → nth j (map g (seq 0 N)) d = g j.
Proof.
  intros Hj. rewrite (nth_indep _ d (g 0%nat)) by (by rewrite length_map, length_seq).
  rewrite (map_nth g). by rewrite seq_nth.
Qed.

(** Entry (d, i) of the transposed matrix is entry (i, d) of the matrix. *)
Lemma nth_transposed (k : list Q) (N D d i : nat) :
  (d < D)%nat → (i < N)%nat →
  nth (d * N + i)
    (flat_map (λ j, map (λ i, nth (i * D + j) k 0%Q) (seq 0 N)) (seq 0 D)) 0%Q
  = nth (i * D + d) k 0%Q.
Proof.
  intros Hd Hi.
  rewrite (nth_flat_map_blocks _ N D 0 d i) by
    (first [intros; by rewrite length_map, length_seq | done]).
  simpl. by rewrite nth_map_seq.
Qed.

(** The mean of [eta] on values: for a slope of D entries, a [ksi] of N
    rows of D entries and a scalar intercept, entry i is the sum over d of
    slope[d] * ksi[i, d], plus the intercept. *)
Lemma eval_eta_mean (s k : list Q) (c : Q) (D N : nat) :
  eval (eta_env (mk_ndarray [D] s) (mk_ndarray [N; D] k) (mk_ndarray [] [c]))
    eta_mean
  = Some (mk_ndarray [N]
            (map (λ i, Qsum (map (λ d, nth d s 0 * nth (i * D + d) k 0)%Q (seq 0 D))
                       + c)%Q
               (seq 0 N))).
Proof.
  unfold eta_mean. simpl. unfold dot. simpl. rewrite Nat.eqb_refl.
  unfold add_arrays. simpl. do 2 f_equal.
  rewrite map_map. apply map_ext_in. intros i Hi%in_seq.
  f_equal. f_equal. apply map_ext_in. intros d Hd%in_seq.
  f_equal. apply nth_transposed; lia.
Qed.

(** ** Running [fit] *)

Section Run.

Context {E : Engine}.

#[local] Ltac unfold_fit :=
  unfold block_model, fit, with_Model, fit_block, T, tt_dot, add, build,
    pm_Flat, pm_HalfFlat, pm_Normal, declare, pm_sample, setattr,
    mbind, mret, Py_bind, Py_ret, bind, ret, lift.

#[local] Ltac unfold_requests :=
  unfold accepts, requests, requests_before_y, requests_from_y, declarations,
    latent_declarations, eta_declaration, xi_declaration, yi_declaration,
    eta_mean.

(** One request of the program answered: the engine refuses, and the goal
    is closed, or it accepts, and the run goes on. *)
#[local] Ltac answer :=
  match goal with
  | |- context [accept ?m ?r] =>
      destruct (accept m r) as [[]|?]; simpl;
      [|try (intros [= <-]; done); try discriminate]
  end.

(** When the inputs coerce, [y] is an array and the engine accepts the
    requests: the nine declarations are made, the sampler is called on
    them, and the trace is stored. *)
Lemma fit_run self X y y_error x_error kw w X' x_error' ya :
  np_atleast_2d X = Ok X' →
  np_atleast_2d x_error = Ok x_error' →
  y = PyNdarray ya →
  accepts (requests X' y (shape ya) y_error x_error') = Ok () →
  let m := declarations X' y (shape ya) y_error x_error' in
  fit self X y y_error x_error kw w =
    match sample m kw (engine w) with
    | (Ok t, g) => (Ok self, store_trace self t (after_sample w m kw g))
    | (Raise e, g) => (Raise e, after_sample w m kw g)
    end.
Proof.
  intros HX Hxe -> Hacc m. subst m. revert Hacc.
  destruct (np_atleast_2d_shape _ _ HX) as (d & n & rest & Hs).
  unfold_fit. rewrite HX, Hxe. unfold_requests. rewrite Hs.
  destruct w as [h c sc g]. simpl.
  do 14 answer. intros _.
  destruct (sample _ kw g) as [[t|e] g']; reflexivity.
Qed.

(** The engine refuses one of the requests: its exception is the one of
    [fit], and the sampler is not called. *)
Lemma fit_engine_refuses self X y y_error x_error kw w X' x_error' ya e :
  np_atleast_2d X = Ok X' →
  np_atleast_2d x_error = Ok x_error' →
  y = PyNdarray ya →
  accepts (requests X' y (shape ya) y_error x_error') = Raise e →
  fit self X y y_error x_error kw w = (Raise e, w).
Proof.
  intros HX Hxe -> Hacc. revert Hacc.
  destruct (np_atleast_2d_shape _ _ HX) as (d & n & rest & Hs).
  unfold_fit. rewrite HX, Hxe. unfold_requests. rewrite Hs.
  destruct w as [h c sc g]. simpl.
  do 14 answer. discriminate.
Qed.

Lemma fit_raise_X self X y y_error x_error kw w e :
  np_atleast_2d X = Raise e →
  fit self X y y_error x_error kw w = (Raise e, w).
Proof.
  intros HX. unfold_fit. by rewrite HX.
Qed.

Lemma fit_raise_x_error self X y y_error x_error kw w X' e :
  np_atleast_2d X = Ok X' →
  np_atleast_2d x_error = Raise e →
  fit self X y y_error x_error kw w = (Raise e, w).
Proof.
  intros HX Hxe. unfold_fit. by rewrite HX, Hxe.
Qed.

(** The engine refuses a request made before the shape of [y] is read. *)
Lemma fit_engine_refuses_before_y self X y y_error x_error kw w X' x_error' e :
  np_atleast_2d X = Ok X' →
  np_atleast_2d x_error = Ok x_error' →
  accepts (requests_before_y X') = Raise e →
  fit self X y y_error x_error kw w = (Raise e, w).
Proof.
  intros HX Hxe Hacc. revert Hacc.
  destruct (np_atleast_2d_shape _ _ HX) as (d & n & rest & Hs).
  unfold_fit. rewrite HX, Hxe. unfold_requests. rewrite Hs.
  destruct w as [h c sc g]. simpl.
  do 10 answer. discriminate.
Qed.

(** When [y] has no [shape], the block stops after six declarations; the
    context is left, and nothing else has changed. *)
Lemma fit_raise_y self X y y_error x_error kw w X' x_error' e :
  np_atleast_2d X = Ok X' →
  np_atleast_2d x_error = Ok x_error' →
  accepts (requests_before_y X') = Ok () →
  getattr_shape y = Raise e →
  fit self X y y_error x_error kw w = (Raise e, w)
  ∧ block_model self X' y y_error x_error' kw w = latent_declarations X'.
Proof.
  intros HX Hxe Hacc Hy. revert Hacc.
  destruct (np_atleast_2d_shape _ _ HX) as (d & n & rest & Hs).
  unfold_fit. rewrite HX, Hxe. unfold_requests. rewrite Hs, Hy.
  destruct w as [h c sc g]. simpl.
  do 10 answer. intros _. split; reflexivity.
Qed.

(** Once the six declarations before [eta] are accepted they are in the
    model of the block, whatever [y] is and whatever the engine answers
    afterwards. *)
Lemma block_model_latent self X y y_error x_error kw w :
  (2 ≤ ndim X)%nat →
  accepts (Register <$> latent_declarations X) = Ok () →
  ∃ rest, block_model self X y y_error x_error kw w
          = (latent_declarations X ++ rest)%list.
Proof.
  intros Hd. destruct X as [[|d [|n rest]] dt]; unfold ndim in Hd; simpl in Hd; try lia.
  unfold_fit. unfold_requests. destruct w as [h c sc g]. simpl.
  do 6 answer. intros _.
  repeat match goal with
  | |- context [accept ?m ?r] =>
      destruct (accept m r) as [[]|?]; simpl; [|eexists; reflexivity]
  | |- context [getattr_shape y] =>
      destruct (getattr_shape y) as [?|?]; simpl; [|eexists; reflexivity]
  end.
  destruct (sample _ kw g) as [[t|e] g']; simpl; eexists; reflexivity.
Qed.

Lemma block_model_array self X y y_error x_error kw w ya :
  (2 ≤ ndim X)%nat →
  y = PyNdarray ya →
  accepts (requests X y (shape ya) y_error x_error) = Ok () →
  block_model self X y y_error x_error kw w
  = declarations X y (shape ya) y_error x_error.
Proof.
  intros Hd ->. destruct X as [[|d [|n rest]] dt]; unfold ndim in Hd; simpl in Hd; try lia.
  unfold_fit. unfold_requests. destruct w as [h c sc g]. simpl.
  do 14 answer. intros _.
  destruct (sample _ kw g) as [[t|e] g']; reflexivity.
Qed.

Lemma fit_samples_declarations self X y y_error x_error kw w X' x_error' ya :
  np_atleast_2d X = Ok X' →
  np_atleast_2d x_error = Ok x_error' →
  y = PyNdarray ya →
  accepts (requests X' y (shape ya) y_error x_error') = Ok () →
  fit_samples self X y y_error x_error kw w
    (declarations X' y (shape ya) y_error x_error').
Proof.
  intros HX Hxe Hy Hacc. unfold fit_samples.
  rewrite (fit_run _ _ _ _ _ _ _ _ _ _ HX Hxe Hy Hacc).
  destruct (sample _ kw (engine w)) as [[t|e] g]; reflexivity.
Qed.

(** A call of [fit] that returns has coerced its inputs, had its requests
    accepted, read the shape of an array [y], got a trace from the sampler
    and stored it. *)
Lemma fit_Ok_inv self X y y_error x_error kw w r w' :
  fit self X y y_error x_error kw w = (Ok r, w') →
  ∃ X' x_error' ya t g,
    np_atleast_2d X = Ok X' ∧ np_atleast_2d x_error = Ok x_error'
    ∧ y = PyNdarray ya
    ∧ accepts (requests X' y (shape ya) y_error x_error') = Ok ()
    ∧ sample (declarations X' y (shape ya) y_error x_error') kw (engine w) = (Ok t, g)
    ∧ r = self
    ∧ w' = store_trace self t
             (after_sample w (declarations X' y (shape ya) y_error x_error') kw g).
Proof.
  intros Hfit.
  destruct (np_atleast_2d X) as [X'|e] eqn:HX;
    [|by rewrite (fit_raise_X _ _ _ _ _ _ _ _ HX) in Hfit].
  destruct (np_atleast_2d x_error) as [xe'|e] eqn:Hxe;
    [|by rewrite (fit_raise_x_error _ _ _ _ _ _ _ _ _ HX Hxe) in Hfit].
  destruct (accepts (requests_before_y X')) as [[]|e] eqn:Hb;
    [|by rewrite (fit_engine_refuses_before_y _ _ _ _ _ _ _ _ _ _ HX Hxe Hb) in Hfit].
  destruct y as [q|items|ya].
  - by rewrite (proj1 (fit_raise_y _ _ (PyNum q) _ _ kw w _ _ _ HX Hxe Hb eq_refl)) in Hfit.
  - by rewrite (proj1 (fit_raise_y _ _ (PyList items) _ _ kw w _ _ _ HX Hxe Hb eq_refl)) in Hfit.
  - destruct (accepts (requests X' (PyNdarray ya) (shape ya) y_error xe')) as [[]|e] eqn:Hacc;
      [|by rewrite (fit_engine_refuses _ _ _ _ _ _ _ _ _ _ _ HX Hxe eq_refl Hacc) in Hfit].
    rewrite (fit_run _ _ _ _ _ _ _ _ _ _ HX Hxe eq_refl Hacc) in Hfit.
    destruct (sample _ kw (engine w)) as [[t|e] g] eqn:Hs; [|discriminate].
    injection Hfit as <- <-. exists X', xe', ya, t, g. done.
Qed.

Lemma getattr_store_trace_eq self t w :
  getattr self "trace" (store_trace self t w) = Some (AttrTrace t).
Proof.
  unfold getattr, store_trace. simpl. rewrite lookup_insert_eq. simpl.
  by rewrite lookup_insert_eq.
Qed.

Lemma getattr_store_trace_ne self t w l a :
  (l, a) ≠ (self, "trace") →
  getattr l a (store_trace self t w) = getattr l a w.
Proof.
  intros Hne. unfold getattr, store_trace. simpl.
  destruct (decide (l = self)) as [->|Hl].
  - rewrite lookup_insert_eq. simpl.
    rewrite lookup_insert_ne by congruence.
    destruct (heap w !! self); reflexivity.
  - by rewrite lookup_insert_ne.
Qed.

End Run.

(** ** The engine [zero_engine] keeps the engine's promises *)

Lemma zero_trace_lookup n m name draws :
  zero_trace n m !! name = Some draws →
  ∃ s, draws = replicate n (zeros s).
Proof.
  unfold zero_trace. intros H%elem_of_list_to_map_2.
  apply list_elem_of_fmap in H as (v & [= -> ->] & _). eauto.
Qed.

Lemma zero_trace_covers n m : trace_covers m (zero_trace n m).
Proof.
  intros v Hv. unfold zero_trace.
  destruct (list_to_map _ !! rv_name v) eqn:Hl; [eauto|].
  apply not_elem_of_list_to_map_2 in Hl. exfalso. apply Hl.
  rewrite <- list_fmap_compose. apply list_elem_of_fmap. exists v. auto.
Qed.

Lemma zeros_nonneg s : nonneg_draw (zeros s).
Proof.
  unfold nonneg_draw, zeros. simpl. apply Forall_replicate. apply Qle_refl.
Qed.

Lemma zero_engine_contract : EngineContract zero_engine.
Proof.
  split; simpl; intros m kw g t g' [= <- _].
  - apply zero_trace_covers.
  - intros v draws _ _ (s & ->)%zero_trace_lookup.
    apply Forall_replicate, zeros_nonneg.
Qed.

(** ** The declared model *)

Ltac unfold_declarations :=
  unfold declarations, latent_declarations, eta_declaration, xi_declaration,
    yi_declaration, eta_mean, T_shape.

(** C1.  In the model that [fit] hands to the sampler, [ksi] is Normal with
    mean [mu] and its dispersion keyword bound to [tau], of shape (N, D),
    the reversal of the shape (D, N) of the coerced [X]; [mu] is Normal
    with mean 0 and standard deviation [tau], of shape (D,), which
    broadcasts against (N, D); [tau] is one and the same declared variable
    in both. *)
Theorem ksi_and_mu_priors `{E : Engine} (self : loc)
    (X y y_error x_error : pyobj) (kw : kwargs) (w : world)
    (X' x_error' ya : ndarray) (D N : nat) :
  np_atleast_2d X = Ok X' →
  np_atleast_2d x_error = Ok x_error' →
  y = PyNdarray ya →
  accepts (requests X' y (shape ya) y_error x_error') = Ok () →
  shape X' = [D; N] →
  ∃ m, fit_samples self X y y_error x_error kw w m
    ∧ model_var "ksi" m
      = Some (mk_RV "ksi" (Normal (TRV "mu") None (Some (TRV "tau"))) [N; D] None)
    ∧ T_shape X' = [N; D]
    ∧ model_var "mu" m
      = Some (mk_RV "mu" (Normal (TConst (PyNum 0)) (Some (TRV "tau")) None) [D] None)
    ∧ broadcast_shapes [D] [N; D] = Some [N; D]
    ∧ model_var "tau" m = Some (mk_RV "tau" HalfFlat [D] None).
Proof.
  intros HX Hxe Hy Hacc Hs.
  exists (declarations X' y (shape ya) y_error x_error').
  split; [by eapply fit_samples_declarations|].
  unfold_declarations. rewrite Hs. simpl.
  repeat split; try reflexivity.
  unfold broadcast_shapes. simpl. by rewrite Nat.eqb_refl.
Qed.

Lemma ksi_and_mu_priors_witness :
  ∃ m, fit_samples (E:=zero_engine) 7 X_five y_five y_error_five x_error_five
         default_sample_kwargs initial_world m
    ∧ model_var "ksi" m
      = Some (mk_RV "ksi" (Normal (TRV "mu") None (Some (TRV "tau"))) [5; 1] None)
    ∧ T_shape (mk_ndarray [1; 5] [1; 2; 3; 4; 5]%Q) = [5; 1]
    ∧ model_var "mu" m
      = Some (mk_RV "mu" (Normal (TConst (PyNum 0)) (Some (TRV "tau")) None) [1] None)
    ∧ broadcast_shapes [1] [5; 1] = Some [5; 1]
    ∧ model_var "tau" m = Some (mk_RV "tau" HalfFlat [1] None).
Proof.
  apply (ksi_and_mu_priors (E:=zero_engine) 7 X_five y_five y_error_five
           x_error_five default_sample_kwargs initial_world
           (mk_ndarray [1; 5] [1; 2; 3; 4; 5]%Q)
           (mk_ndarray [1; 5] (replicate 5 tenth))
           (mk_ndarray [5] [21 # 10; 39 # 10; 62 # 10; 78 # 10; 101 # 10]%Q)
           1 5); reflexivity.
Defined.

(** C2.  In every run of [fit] that gets as far as declaring [ksi],
    whatever [y] is and whatever happens afterwards, the model holds
    [mu] with [tau] passed as the keyword [sd] and no [tau] keyword, and
    [ksi] with the same variable passed as the keyword [tau] and no [sd]
    keyword; when the run reaches the sampler this is the model handed to
    it.  The two keywords do not mean the same: for a value t they give
    variance t*t and 1/t, which differ at t = 2. *)
Theorem mu_sd_ksi_tau_keywords `{E : Engine} (self : loc)
    (X y y_error x_error : pyobj) (kw : kwargs) (w : world)
    (X' x_error' : ndarray) :
  np_atleast_2d X = Ok X' →
  np_atleast_2d x_error = Ok x_error' →
  accepts (Register <$> latent_declarations X') = Ok () →
  let m := block_model self X' y y_error x_error' kw w in
  rv_dist <$> model_var "mu" m
    = Some (Normal (TConst (PyNum 0)) (Some (TRV "tau")) None)
  ∧ rv_dist <$> model_var "ksi" m
    = Some (Normal (TRV "mu") None (Some (TRV "tau")))
  ∧ rv_dist <$> model_var "tau" m = Some HalfFlat
  ∧ (∀ ya, y = PyNdarray ya →
       accepts (requests X' y (shape ya) y_error x_error') = Ok () →
       fit_samples self X y y_error x_error kw w m)
  ∧ (∀ t : Q, normal_variance (Some t) None = Some (t * t)%Q
            ∧ normal_variance None (Some t) = Some (/ t)%Q)
  ∧ ¬ (2 * 2 == / 2)%Q.
Proof.
  intros HX Hxe Hb m.
  assert (Hd : (2 ≤ ndim X')%nat).
  { destruct (np_atleast_2d_shape _ _ HX) as (d & n & rest & Hs).
    unfold ndim. rewrite Hs. simpl. lia. }
  destruct (block_model_latent self X' y y_error x_error' kw w Hd Hb) as [rest Hm].
  repeat split.
  - subst m. rewrite Hm. reflexivity.
  - subst m. rewrite Hm. reflexivity.
  - subst m. rewrite Hm. reflexivity.
  - intros ya Hy Hacc. subst m. rewrite (block_model_array _ _ _ _ _ _ _ ya Hd Hy Hacc).
    by eapply fit_samples_declarations.
  - intros H. vm_compute in H. discriminate.
Qed.

Lemma mu_sd_ksi_tau_keywords_witness :
  let m := block_model (E:=zero_engine) 7 (mk_ndarray [1; 5] [1; 2; 3; 4; 5]%Q)
             y_five y_error_five
             (mk_ndarray [1; 5] (replicate 5 tenth))
             default_sample_kwargs initial_world in
  rv_dist <$> model_var "mu" m
    = Some (Normal (TConst (PyNum 0)) (Some (TRV "tau")) None)
  ∧ rv_dist <$> model_var "ksi" m
    = Some (Normal (TRV "mu") None (Some (TRV "tau")))
  ∧ rv_dist <$> model_var "tau" m = Some HalfFlat
  ∧ (∀ ya, y_five = PyNdarray ya →
       accepts (E:=zero_engine)
         (requests (mk_ndarray [1; 5] [1; 2; 3; 4; 5]%Q) y_five (shape ya)
            y_error_five (mk_ndarray [1; 5] (replicate 5 tenth))) = Ok () →
       fit_samples 7 X_five y_five y_error_five x_error_five
         default_sample_kwargs initial_world m)
  ∧ (∀ t : Q, normal_variance (Some t) None = Some (t * t)%Q
            ∧ normal_variance None (Some t) = Some (/ t)%Q)
  ∧ ¬ (2 * 2 == / 2)%Q.
Proof.
  apply (mu_sd_ksi_tau_keywords (E:=zero_engine) 7 X_five y_five
           y_error_five x_error_five default_sample_kwargs initial_world);
    reflexivity.
Defined.

(** C3.  In the model that [fit] hands to the sampler, for a coerced [X]
    of shape (D, N) and an array [y] of shape (N,): [eta] is Normal of
    shape (N,), its mean is [dot(slope.T, ksi.T) + inter], its standard
    deviation is [int_std].  In that mean [slope.T] has shape (D,) and
    [ksi.T] shape (D, N), so the product contracts the D axis and has
    length N, and so has the sum with the scalar [inter]; on values, entry
    i of the mean is the sum over d of slope[d] * ksi[i, d], plus the
    intercept. *)
Theorem eta_prior `{E : Engine} (self : loc)
    (X y y_error x_error : pyobj) (kw : kwargs) (w : world)
    (X' x_error' ya : ndarray) (D N : nat) :
  np_atleast_2d X = Ok X' →
  np_atleast_2d x_error = Ok x_error' →
  y = PyNdarray ya →
  accepts (requests X' y (shape ya) y_error x_error') = Ok () →
  shape X' = [D; N] →
  shape ya = [N] →
  let product := TDot (TT (TRV "slope")) (TT (TRV "ksi")) in
  ∃ m, fit_samples self X y y_error x_error kw w m
    ∧ model_var "eta" m
      = Some (mk_RV "eta"
                (Normal (TAdd product (TRV "inter")) (Some (TRV "int_std")) None)
                [N] None)
    ∧ tensor_shape m (TT (TRV "slope")) = Some [D]
    ∧ tensor_shape m (TT (TRV "ksi")) = Some [D; N]
    ∧ tensor_shape m product = Some [N]
    ∧ tensor_shape m (TRV "inter") = Some []
    ∧ tensor_shape m (TAdd product (TRV "inter")) = Some [N]
    ∧ rv_dist <$> model_var "int_std" m = Some HalfFlat
    ∧ ∀ (s k : list Q) (c : Q),
        eval (eta_env (mk_ndarray [D] s) (mk_ndarray [N; D] k) (mk_ndarray [] [c]))
          (TAdd product (TRV "inter"))
        = Some (mk_ndarray [N]
                  (map (λ i, Qsum (map (λ d, nth d s 0 * nth (i * D + d) k 0)%Q
                                     (seq 0 D)) + c)%Q
                     (seq 0 N))).
Proof.
  intros HX Hxe Hy Hacc Hs Hys product. subst product.
  exists (declarations X' y (shape ya) y_error x_error').
  split; [by eapply fit_samples_declarations|].
  unfold_declarations. rewrite Hs, Hys. simpl.
  rewrite Nat.eqb_refl. simpl. unfold broadcast_shapes. simpl.
  repeat split; try reflexivity.
  intros s k c. apply eval_eta_mean.
Qed.

Lemma eta_prior_witness :
  let product := TDot (TT (TRV "slope")) (TT (TRV "ksi")) in
  ∃ m, fit_samples (E:=zero_engine) 7 X_2x5 y_five y_error_five x_error_2x5
         default_sample_kwargs initial_world m
    ∧ model_var "eta" m
      = Some (mk_RV "eta"
                (Normal (TAdd product (TRV "inter")) (Some (TRV "int_std")) None)
                [5] None)
    ∧ tensor_shape m (TT (TRV "slope")) = Some [2]
    ∧ tensor_shape m (TT (TRV "ksi")) = Some [2; 5]
    ∧ tensor_shape m product = Some [5]
    ∧ tensor_shape m (TRV "inter") = Some []
    ∧ tensor_shape m (TAdd product (TRV "inter")) = Some [5]
    ∧ rv_dist <$> model_var "int_std" m = Some HalfFlat
    ∧ ∀ (s k : list Q) (c : Q),
        eval (eta_env (mk_ndarray [2] s) (mk_ndarray [5; 2] k) (mk_ndarray [] [c]))
          (TAdd product (TRV "inter"))
        = Some (mk_ndarray [5]
                  (map (λ i, Qsum (map (λ d, nth d s 0 * nth (i * 2 + d) k 0)%Q
                                     (seq 0 2)) + c)%Q
                     (seq 0 5))).
Proof.
  apply (eta_prior (E:=zero_engine) 7 X_2x5 y_five y_error_five
           x_error_2x5 default_sample_kwargs initial_world
           (mk_ndarray [2; 5] [1; 2; 3; 4; 5; 5; 4; 3; 2; 1]%Q)
           (mk_ndarray [2; 5] (replicate 10 tenth))
           (mk_ndarray [5] [21 # 10; 39 # 10; 62 # 10; 78 # 10; 101 # 10]%Q)
           2 5); reflexivity.
Defined.

(** A run of the mean on numbers: slope (2, 3), intercept 1 and three
    observations (1, 0), (0, 1), (1, 1) give 3, 4 and 6. *)
Example eta_mean_example :
  eval (eta_env (mk_ndarray [2] [2; 3]%Q)
          (mk_ndarray [3; 2] [1; 0; 0; 1; 1; 1]%Q)
          (mk_ndarray [] [1%Q]))
    eta_mean
  = Some (mk_ndarray [3] [2 * 1 + (3 * 0 + 0) + 1; 2 * 0 + (3 * 1 + 0) + 1;
                          2 * 1 + (3 * 1 + 0) + 1]%Q).
Proof. reflexivity. Qed.

(** C4.  In the model that [fit] hands to the sampler, for a coerced [X]
    of shape (D, N): the observed [xi] is Normal with mean [ksi.T], of
    shape (D, N), standard deviation the coerced [x_error] and observed
    values the coerced [X]; the observed [yi] is Normal with mean [eta],
    standard deviation [y_error] and observed values [y]. *)
Theorem observed_likelihoods `{E : Engine} (self : loc)
    (X y y_error x_error : pyobj) (kw : kwargs) (w : world)
    (X' x_error' ya : ndarray) (D N : nat) :
  np_atleast_2d X = Ok X' →
  np_atleast_2d x_error = Ok x_error' →
  y = PyNdarray ya →
  accepts (requests X' y (shape ya) y_error x_error') = Ok () →
  shape X' = [D; N] →
  ∃ m, fit_samples self X y y_error x_error kw w m
    ∧ model_var "xi" m
      = Some (mk_RV "xi"
                (Normal (TT (TRV "ksi")) (Some (TConst (PyNdarray x_error'))) None)
                [D; N] (Some (PyNdarray X')))
    ∧ tensor_shape m (TT (TRV "ksi")) = Some [D; N]
    ∧ model_var "yi" m
      = Some (mk_RV "yi" (Normal (TRV "eta") (Some (TConst y_error)) None)
                (shape ya) (Some y))
    ∧ observed_RVs m = filter (λ v, rv_name v = "xi" ∨ rv_name v = "yi") m.
Proof.
  intros HX Hxe -> Hacc Hs.
  exists (declarations X' (PyNdarray ya) (shape ya) y_error x_error').
  split; [by eapply fit_samples_declarations|].
  unfold_declarations. rewrite Hs. simpl.
  repeat split; reflexivity.
Qed.

Lemma observed_likelihoods_witness :
  ∃ m, fit_samples (E:=zero_engine) 7 X_five y_five y_error_five x_error_five
         default_sample_kwargs initial_world m
    ∧ model_var "xi" m
      = Some (mk_RV "xi"
                (Normal (TT (TRV "ksi"))
                   (Some (TConst (PyNdarray (mk_ndarray [1; 5] (replicate 5 tenth)))))
                   None)
                [1; 5] (Some (PyNdarray (mk_ndarray [1; 5] [1; 2; 3; 4; 5]%Q))))
    ∧ tensor_shape m (TT (TRV "ksi")) = Some [1; 5]
    ∧ model_var "yi" m
      = Some (mk_RV "yi" (Normal (TRV "eta") (Some (TConst y_error_five)) None)
                [5] (Some y_five))
    ∧ observed_RVs m = filter (λ v, rv_name v = "xi" ∨ rv_name v = "yi") m.
Proof.
  apply (observed_likelihoods (E:=zero_engine) 7 X_five y_five y_error_five
           x_error_five default_sample_kwargs initial_world
           (mk_ndarray [1; 5] [1; 2; 3; 4; 5]%Q)
           (mk_ndarray [1; 5] (replicate 5 tenth))
           (mk_ndarray [5] [21 # 10; 39 # 10; 62 # 10; 78 # 10; 101 # 10]%Q)
           1 5); reflexivity.
Defined.

(** C5.  In the model that [fit] hands to the sampler, D being the first
    axis of the coerced [X]: [slope] is Flat of shape (D,), the intercept
    [inter] is Flat and scalar, [int_std] is HalfFlat and scalar, [tau] is
    HalfFlat of shape (D,); none of the four is observed. *)
Theorem flat_priors `{E : Engine} (self : loc)
    (X y y_error x_error : pyobj) (kw : kwargs) (w : world)
    (X' x_error' ya : ndarray) (D : nat) (rest : list nat) :
  np_atleast_2d X = Ok X' →
  np_atleast_2d x_error = Ok x_error' →
  y = PyNdarray ya →
  accepts (requests X' y (shape ya) y_error x_error') = Ok () →
  shape X' = D :: rest →
  ∃ m, fit_samples self X y y_error x_error kw w m
    ∧ model_var "slope" m = Some (mk_RV "slope" Flat [D] None)
    ∧ model_var "inter" m = Some (mk_RV "inter" Flat [] None)
    ∧ model_var "int_std" m = Some (mk_RV "int_std" HalfFlat [] None)
    ∧ model_var "tau" m = Some (mk_RV "tau" HalfFlat [D] None).
Proof.
  intros HX Hxe Hy Hacc Hs.
  exists (declarations X' y (shape ya) y_error x_error').
  split; [by eapply fit_samples_declarations|].
  unfold_declarations. rewrite Hs. simpl.
  repeat split; reflexivity.
Qed.

Lemma flat_priors_witness :
  ∃ m, fit_samples (E:=zero_engine) 7 X_2x5 y_five y_error_five x_error_2x5
         default_sample_kwargs initial_world m
    ∧ model_var "slope" m = Some (mk_RV "slope" Flat [2] None)
    ∧ model_var "inter" m = Some (mk_RV "inter" Flat [] None)
    ∧ model_var "int_std" m = Some (mk_RV "int_std" HalfFlat [] None)
    ∧ model_var "tau" m = Some (mk_RV "tau" HalfFlat [2] None).
Proof.
  apply (flat_priors (E:=zero_engine) 7 X_2x5 y_five y_error_five
           x_error_2x5 default_sample_kwargs initial_world
           (mk_ndarray [2; 5] [1; 2; 3; 4; 5; 5; 4; 3; 2; 1]%Q)
           (mk_ndarray [2; 5] (replicate 10 tenth))
           (mk_ndarray [5] [21 # 10; 39 # 10; 62 # 10; 78 # 10; 101 # 10]%Q)
           2 [5]); reflexivity.
Defined.

(** ** Errors *)

(** C6, as the program has it.  [fit] checks neither that the shapes of
    its inputs agree nor the sign of the errors.  Whenever [X] and
    [x_error] coerce and [y] is an array, whatever their shapes and
    entries, the only exceptions are those of the engine: either the
    engine refuses one of the requests made while the model is built, and
    [fit] raises that, or the nine variables are declared and the sampler
    is called on them; then [fit] returns [self] when the sampler returns
    a trace and otherwise raises what the sampler raised. *)
Theorem fit_does_not_validate `{E : Engine} (self : loc)
    (X y y_error x_error : pyobj) (kw : kwargs) (w : world)
    (X' x_error' ya : ndarray) :
  np_atleast_2d X = Ok X' →
  np_atleast_2d x_error = Ok x_error' →
  y = PyNdarray ya →
  match accepts (requests X' y (shape ya) y_error x_error') with
  | Raise e => fit self X y y_error x_error kw w = (Raise e, w)
  | Ok _ =>
      ∃ m, fit_samples self X y y_error x_error kw w m
        ∧ block_model self X' y y_error x_error' kw w = m
        ∧ rv_name <$> m
          = ["slope"; "inter"; "int_std"; "tau"; "mu"; "ksi"; "eta"; "xi"; "yi"]
        ∧ match (sample m kw (engine w)).1 with
          | Ok _ => (fit self X y y_error x_error kw w).1 = Ok self
          | Raise e => (fit self X y y_error x_error kw w).1 = Raise e
          end
  end.
Proof.
  intros HX Hxe Hy.
  destruct (accepts (requests X' y (shape ya) y_error x_error')) as [[]|e] eqn:Hacc;
    [|by eapply fit_engine_refuses].
  exists (declarations X' y (shape ya) y_error x_error').
  split; [by eapply fit_samples_declarations|]. split.
  - apply block_model_array; [|done..].
    destruct (np_atleast_2d_shape _ _ HX) as (d & n & rest & Hs).
    unfold ndim. rewrite Hs. simpl. lia.
  - split; [reflexivity|].
    rewrite (fit_run _ _ _ _ _ _ _ _ _ _ HX Hxe Hy Hacc).
    destruct (sample _ kw (engine w)) as [[t|e] g]; reflexivity.
Qed.

Lemma fit_does_not_validate_witness :
  match accepts (E:=zero_engine)
          (requests (mk_ndarray [2; 10] (replicate 20 1%Q)) y_nine [9%nat]
             y_error_nine (mk_ndarray [2; 10] (replicate 20 tenth))) with
  | Raise e =>
      fit (E:=zero_engine) 7 X_2x10 y_nine y_error_nine x_error_2x10
        default_sample_kwargs initial_world = (Raise e, initial_world)
  | Ok _ =>
      ∃ m, fit_samples (E:=zero_engine) 7 X_2x10 y_nine y_error_nine x_error_2x10
             default_sample_kwargs initial_world m
        ∧ block_model 7 (mk_ndarray [2; 10] (replicate 20 1%Q)) y_nine y_error_nine
            (mk_ndarray [2; 10] (replicate 20 tenth)) default_sample_kwargs
            initial_world = m
        ∧ rv_name <$> m
          = ["slope"; "inter"; "int_std"; "tau"; "mu"; "ksi"; "eta"; "xi"; "yi"]
        ∧ match (sample (Engine:=zero_engine) m default_sample_kwargs
                   (engine initial_world)).1 with
          | Ok _ => (fit 7 X_2x10 y_nine y_error_nine x_error_2x10
                       default_sample_kwargs initial_world).1 = Ok 7%nat
          | Raise e => (fit 7 X_2x10 y_nine y_error_nine x_error_2x10
                          default_sample_kwargs initial_world).1 = Raise e
          end
  end.
Proof.
  apply (fit_does_not_validate (E:=zero_engine) 7 X_2x10 y_nine y_error_nine
           x_error_2x10 default_sample_kwargs initial_world
           (mk_ndarray [2; 10] (replicate 20 1%Q))
           (mk_ndarray [2; 10] (replicate 20 tenth))
           (mk_ndarray [9] (replicate 9 2%Q))); reflexivity.
Defined.

(** C6, as the specification has it, fails.  With [X] of shape (2, 10)
    against nine responses, and with a negative entry in [y_error] or in
    [x_error], [fit] itself raises nothing.  With the engine that accepts
    every request the nine variables are declared, the sampler is called
    and [self] is returned.  With the engine that checks shapes, the
    mismatch is refused by the engine when [eta] is declared, six
    declarations into the building of the model, and the negative errors
    are not refused at all. *)
Lemma fit_accepts_mismatch_and_negative_errors :
  let mismatch :=
    fit (E:=zero_engine) 7 X_2x10 y_nine y_error_nine x_error_2x10
      default_sample_kwargs initial_world in
  let negative_y_error :=
    fit (E:=zero_engine) 7 X_five y_five y_error_negative x_error_five
      default_sample_kwargs initial_world in
  let negative_x_error :=
    fit (E:=zero_engine) 7 X_five y_five y_error_five x_error_negative
      default_sample_kwargs initial_world in
  (shape <$> np_atleast_2d X_2x10 = Ok [2; 10]%nat
   ∧ getattr_shape y_nine = Ok [9%nat])
  ∧ (mismatch.1 = Ok 7%nat
     ∧ map (λ c, length c.1) (sampler_calls mismatch.2) = [9%nat])
  ∧ has_negative <$> np_asanyarray y_error_negative = Ok true
  ∧ (negative_y_error.1 = Ok 7%nat
     ∧ map (λ c, length c.1) (sampler_calls negative_y_error.2) = [9%nat])
  ∧ has_negative <$> np_asanyarray x_error_negative = Ok true
  ∧ (negative_x_error.1 = Ok 7%nat
     ∧ map (λ c, length c.1) (sampler_calls negative_x_error.2) = [9%nat])
  ∧ ((fit (E:=strict_engine) 7 X_2x10 y_nine y_error_nine x_error_2x10
        default_sample_kwargs strict_world).1 = Raise ValueError
     ∧ rv_name <$> block_model (E:=strict_engine) 7
                     (mk_ndarray [2; 10] (replicate 20 1%Q)) y_nine y_error_nine
                     (mk_ndarray [2; 10] (replicate 20 tenth))
                     default_sample_kwargs strict_world
       = ["slope"; "inter"; "int_std"; "tau"; "mu"; "ksi"])
  ∧ (fit (E:=strict_engine) 7 X_five y_five y_error_negative x_error_negative
       default_sample_kwargs strict_world).1 = Ok 7%nat.
Proof.
  vm_compute. repeat split.
Qed.

(** C10.  [y] given as a plain list: once [X] and [x_error] have been
    coerced and the engine has accepted what is asked of it before, [fit]
    raises [AttributeError] when it reads the shape of [y] for [eta],
    after the six declarations before it; no sampler call is made and the
    state is what it was.  The same values given as the array that the
    list converts to reach the sampler: the exception is due to [y] not
    being coerced. *)
Theorem fit_y_list_raises `{E : Engine} (self : loc) (X : pyobj)
    (items : list pyobj) (y_error x_error : pyobj) (kw : kwargs) (w : world)
    (X' x_error' : ndarray) :
  np_atleast_2d X = Ok X' →
  np_atleast_2d x_error = Ok x_error' →
  accepts (requests_before_y X') = Ok () →
  fit self X (PyList items) y_error x_error kw w = (Raise AttributeError, w)
  ∧ sampler_calls (fit self X (PyList items) y_error x_error kw w).2
    = sampler_calls w
  ∧ rv_name <$> block_model self X' (PyList items) y_error x_error' kw w
    = ["slope"; "inter"; "int_std"; "tau"; "mu"; "ksi"]
  ∧ (∀ ya, np_asanyarray (PyList items) = Ok ya →
       accepts (requests X' (PyNdarray ya) (shape ya) y_error x_error') = Ok () →
       ∃ m, fit_samples self X (PyNdarray ya) y_error x_error kw w m).
Proof.
  intros HX Hxe Hb.
  destruct (fit_raise_y self X (PyList items) y_error x_error kw w _ _ _
              HX Hxe Hb eq_refl) as [Hfit Hm].
  rewrite Hfit, Hm. repeat split.
  intros ya _ Hacc. eexists. by eapply fit_samples_declarations.
Qed.

Lemma fit_y_list_raises_witness :
  fit (E:=zero_engine) 7 X_five (PyList y_five_list) y_error_five x_error_five
    default_sample_kwargs initial_world
  = (Raise AttributeError, initial_world)
  ∧ sampler_calls
      (fit (E:=zero_engine) 7 X_five (PyList y_five_list) y_error_five
         x_error_five default_sample_kwargs initial_world).2
    = sampler_calls initial_world
  ∧ rv_name <$> block_model 7 (mk_ndarray [1; 5] [1; 2; 3; 4; 5]%Q)
                  (PyList y_five_list) y_error_five
                  (mk_ndarray [1; 5] (replicate 5 tenth))
                  default_sample_kwargs initial_world
    = ["slope"; "inter"; "int_std"; "tau"; "mu"; "ksi"]
  ∧ (∀ ya, np_asanyarray (PyList y_five_list) = Ok ya →
       accepts (E:=zero_engine)
         (requests (mk_ndarray [1; 5] [1; 2; 3; 4; 5]%Q) (PyNdarray ya) (shape ya)
            y_error_five (mk_ndarray [1; 5] (replicate 5 tenth))) = Ok () →
       ∃ m, fit_samples 7 X_five (PyNdarray ya) y_error_five x_error_five
              default_sample_kwargs initial_world m).
Proof.
  apply (fit_y_list_raises (E:=zero_engine) 7 X_five y_five_list y_error_five
           x_error_five default_sample_kwargs initial_world
           (mk_ndarray [1; 5] [1; 2; 3; 4; 5]%Q)
           (mk_ndarray [1; 5] (replicate 5 tenth))); reflexivity.
Defined.

(** ** Coercion of the inputs *)

(** C9.  [X] and [x_error] go through the same coercion before anything
    else: the coerced arrays have at least two axes, an input that
    converts to a 1-d array of length N becomes (1, N) with the same
    data, inputs converting to arrays of one shape are coerced to one
    shape; and the model handed to the sampler is built from the coerced
    arrays: they are the observed values and the standard deviation of
    [xi], and the shapes of [slope], [tau], [mu], [ksi] and [xi] are read
    from the coerced [X]. *)
Theorem inputs_coerced_atleast_2d `{E : Engine} (self : loc)
    (X y y_error x_error : pyobj) (kw : kwargs) (w : world)
    (X' x_error' ya : ndarray) :
  np_atleast_2d X = Ok X' →
  np_atleast_2d x_error = Ok x_error' →
  y = PyNdarray ya →
  accepts (requests X' y (shape ya) y_error x_error') = Ok () →
  (2 ≤ ndim X' ∧ 2 ≤ ndim x_error')%nat
  ∧ (∀ a N, np_asanyarray X = Ok a → shape a = [N] →
       X' = mk_ndarray [1; N] (data a))
  ∧ (∀ a N, np_asanyarray x_error = Ok a → shape a = [N] →
       x_error' = mk_ndarray [1; N] (data a))
  ∧ (shape <$> np_asanyarray X = shape <$> np_asanyarray x_error →
       shape X' = shape x_error')
  ∧ ∃ m d, fit_samples self X y y_error x_error kw w m
      ∧ getitem0 (shape X') = Ok d
      ∧ model_var "xi" m
        = Some (mk_RV "xi"
                  (Normal (TT (TRV "ksi")) (Some (TConst (PyNdarray x_error'))) None)
                  (shape X') (Some (PyNdarray X')))
      ∧ rv_shape <$> model_var "slope" m = Some [d]
      ∧ rv_shape <$> model_var "tau" m = Some [d]
      ∧ rv_shape <$> model_var "mu" m = Some [d]
      ∧ rv_shape <$> model_var "ksi" m = Some (rev (shape X')).
Proof.
  intros HX Hxe Hy Hacc.
  destruct (np_atleast_2d_shape _ _ HX) as (d & n & rest & Hs).
  destruct (np_atleast_2d_shape _ _ Hxe) as (d' & n' & rest' & Hs').
  destruct (np_atleast_2d_inv _ _ HX) as (a & Ha & HX').
  destruct (np_atleast_2d_inv _ _ Hxe) as (b & Hb & Hxe').
  split; [unfold ndim; rewrite Hs, Hs'; simpl; lia|].
  split.
  { intros a0 N Ha0 HN. rewrite Ha in Ha0. injection Ha0 as <-.
    subst X'. unfold promote_2d. by rewrite HN. }
  split.
  { intros b0 N Hb0 HN. rewrite Hb in Hb0. injection Hb0 as <-.
    subst x_error'. unfold promote_2d. by rewrite HN. }
  split.
  { rewrite Ha, Hb. simpl. intros [= Hab]. subst X' x_error'.
    destruct a as [sa da], b as [sb db]. simpl in Hab. subst sb.
    unfold promote_2d. simpl. destruct sa as [|? [|? ?]]; reflexivity. }
  exists (declarations X' y (shape ya) y_error x_error'), d.
  split; [by eapply fit_samples_declarations|].
  unfold_declarations. rewrite Hs. simpl.
  repeat split; reflexivity.
Qed.

Lemma inputs_coerced_atleast_2d_witness :
  let X' := mk_ndarray [1; 5] [1; 2; 3; 4; 5]%Q in
  let x_error' := mk_ndarray [1; 5] (replicate 5 tenth) in
  (2 ≤ ndim X' ∧ 2 ≤ ndim x_error')%nat
  ∧ (∀ a N, np_asanyarray X_five = Ok a → shape a = [N] →
       X' = mk_ndarray [1; N] (data a))
  ∧ (∀ a N, np_asanyarray x_error_five = Ok a → shape a = [N] →
       x_error' = mk_ndarray [1; N] (data a))
  ∧ (shape <$> np_asanyarray X_five = shape <$> np_asanyarray x_error_five →
       shape X' = shape x_error')
  ∧ ∃ m d, fit_samples (E:=zero_engine) 7 X_five y_five y_error_five
             x_error_five default_sample_kwargs initial_world m
      ∧ getitem0 (shape X') = Ok d
      ∧ model_var "xi" m
        = Some (mk_RV "xi"
                  (Normal (TT (TRV "ksi")) (Some (TConst (PyNdarray x_error'))) None)
                  (shape X') (Some (PyNdarray X')))
      ∧ rv_shape <$> model_var "slope" m = Some [d]
      ∧ rv_shape <$> model_var "tau" m = Some [d]
      ∧ rv_shape <$> model_var "mu" m = Some [d]
      ∧ rv_shape <$> model_var "ksi" m = Some (rev (shape X')).
Proof.
  apply (inputs_coerced_atleast_2d (E:=zero_engine) 7 X_five y_five
           y_error_five x_error_five default_sample_kwargs initial_world
           (mk_ndarray [1; 5] [1; 2; 3; 4; 5]%Q)
           (mk_ndarray [1; 5] (replicate 5 tenth))
           (mk_ndarray [5] [21 # 10; 39 # 10; 62 # 10; 78 # 10; 101 # 10]%Q));
    reflexivity.
Defined.

(** ** The stored trace *)

Lemma declarations_free_names X y y_shape y_error x_error :
  rv_name <$> free_RVs (declarations X y y_shape y_error x_error)
  = ["slope"; "inter"; "int_std"; "tau"; "mu"; "ksi"; "eta"].
Proof. reflexivity. Qed.

Lemma trace_covers_names m t name :
  trace_covers m t → name ∈ rv_name <$> free_RVs m → is_Some (t !! name).
Proof.
  intros Hc (v & -> & Hv)%list_elem_of_fmap. by apply Hc.
Qed.

(** C7.  Two calls of [fit] on one instance that both return.  Each
    returns the reference [self] it was given; after each, the attribute
    [trace] of that instance is the trace the sampler returned for the
    model of that call, with draws for slope, inter (the intercept),
    int_std, tau, mu, ksi and eta; after the second call nothing of the
    first trace is left in it; no other attribute of any instance has
    changed. *)
Theorem fit_stores_trace_and_returns_self `{E : Engine} `{!EngineContract E}
    (self : loc) (X1 y1 y_error1 x_error1 : pyobj) (kw1 : kwargs)
    (X2 y2 y_error2 x_error2 : pyobj) (kw2 : kwargs)
    (w0 w1 w2 : world) (r1 r2 : loc) :
  fit self X1 y1 y_error1 x_error1 kw1 w0 = (Ok r1, w1) →
  fit self X2 y2 y_error2 x_error2 kw2 w1 = (Ok r2, w2) →
  r1 = self ∧ r2 = self
  ∧ ∃ m1 t1 g1 m2 t2 g2,
      fit_samples self X1 y1 y_error1 x_error1 kw1 w0 m1
      ∧ sample m1 kw1 (engine w0) = (Ok t1, g1)
      ∧ getattr self "trace" w1 = Some (AttrTrace t1)
      ∧ fit_samples self X2 y2 y_error2 x_error2 kw2 w1 m2
      ∧ sample m2 kw2 (engine w1) = (Ok t2, g2)
      ∧ getattr self "trace" w2 = Some (AttrTrace t2)
      ∧ Forall (λ name, is_Some (t1 !! name) ∧ is_Some (t2 !! name))
          ["slope"; "inter"; "int_std"; "tau"; "mu"; "ksi"; "eta"]
      ∧ ∀ l a, (l, a) ≠ (self, "trace") →
          getattr l a w1 = getattr l a w0 ∧ getattr l a w2 = getattr l a w0.
Proof.
  intros H1 H2.
  destruct (fit_Ok_inv _ _ _ _ _ _ _ _ _ H1)
    as (X1' & xe1' & ya1 & t1 & g1 & HX1 & Hxe1 & Hy1 & Ha1 & Hs1 & -> & Hw1).
  destruct (fit_Ok_inv _ _ _ _ _ _ _ _ _ H2)
    as (X2' & xe2' & ya2 & t2 & g2 & HX2 & Hxe2 & Hy2 & Ha2 & Hs2 & -> & Hw2).
  split; [done|]. split; [done|].
  eexists _, t1, g1, _, t2, g2.
  split; [by eapply fit_samples_declarations|].
  split; [exact Hs1|].
  split; [rewrite Hw1; apply getattr_store_trace_eq|].
  split; [by eapply fit_samples_declarations|].
  split; [exact Hs2|].
  split; [rewrite Hw2; apply getattr_store_trace_eq|].
  split.
  - apply sample_covers in Hs1, Hs2.
    apply Forall_forall. intros name Hn. split.
    + apply (trace_covers_names _ _ _ Hs1). by rewrite declarations_free_names.
    + apply (trace_covers_names _ _ _ Hs2). by rewrite declarations_free_names.
  - intros l a Hne.
    assert (getattr l a w1 = getattr l a w0) as Hg1.
    { rewrite Hw1. by rewrite getattr_store_trace_ne. }
    split; [done|]. rewrite <- Hg1, Hw2. by rewrite getattr_store_trace_ne.
Qed.

Lemma fit_stores_trace_and_returns_self_witness :
  let first := fit (E:=zero_engine) 7 X_2x5 y_five y_error_five x_error_2x5
                 default_sample_kwargs initial_world in
  let second := fit (E:=zero_engine) 7 X_five y_five y_error_five x_error_five
                  default_sample_kwargs first.2 in
  first.1 = Ok 7 ∧ second.1 = Ok 7
  ∧ getattr 7 "trace" first.2
    = Some (AttrTrace (zero_trace 1
              (block_model 7 (mk_ndarray [2; 5] [1; 2; 3; 4; 5; 5; 4; 3; 2; 1]%Q)
                 y_five y_error_five (mk_ndarray [2; 5] (replicate 10 tenth))
                 default_sample_kwargs initial_world)))
  ∧ getattr 7 "trace" second.2
    = Some (AttrTrace (zero_trace 2
              (block_model 7 (mk_ndarray [1; 5] [1; 2; 3; 4; 5]%Q)
                 y_five y_error_five (mk_ndarray [1; 5] (replicate 5 tenth))
                 default_sample_kwargs first.2)))
  ∧ (7%nat = 7%nat ∧ 7%nat = 7%nat
     ∧ ∃ m1 t1 g1 m2 t2 g2,
         fit_samples (E:=zero_engine) 7 X_2x5 y_five y_error_five x_error_2x5
           default_sample_kwargs initial_world m1
         ∧ sample (Engine:=zero_engine) m1 default_sample_kwargs
             (engine initial_world) = (Ok t1, g1)
         ∧ getattr 7 "trace" first.2 = Some (AttrTrace t1)
         ∧ fit_samples 7 X_five y_five y_error_five x_error_five
             default_sample_kwargs first.2 m2
         ∧ sample (Engine:=zero_engine) m2 default_sample_kwargs
             (engine first.2) = (Ok t2, g2)
         ∧ getattr 7 "trace" second.2 = Some (AttrTrace t2)
         ∧ Forall (λ name, is_Some (t1 !! name) ∧ is_Some (t2 !! name))
             ["slope"; "inter"; "int_std"; "tau"; "mu"; "ksi"; "eta"]
         ∧ ∀ l a, (l, a) ≠ (7%nat, "trace") →
             getattr l a first.2 = getattr l a initial_world
             ∧ getattr l a second.2 = getattr l a initial_world).
Proof.
  intros first second.
  split; [reflexivity|]. split; [reflexivity|].
  split; [reflexivity|]. split; [reflexivity|].
  apply (fit_stores_trace_and_returns_self (E:=zero_engine)
           (EngineContract0:=zero_engine_contract) 7
           X_2x5 y_five y_error_five x_error_2x5 default_sample_kwargs
           X_five y_five y_error_five x_error_five default_sample_kwargs
           initial_world first.2 second.2 7 7); reflexivity.
Defined.

(** C8.  Under the engine's promise that draws of a half-flat variable lie
    in its support: after a call of [fit] that returns, the stored trace
    has draws for [int_std] and for [tau], and in every one of them every
    entry is at least zero. *)
Theorem halfflat_draws_nonneg `{E : Engine} `{!EngineContract E}
    (self : loc) (X y y_error x_error : pyobj) (kw : kwargs)
    (w w' : world) (r : loc) :
  fit self X y y_error x_error kw w = (Ok r, w') →
  ∃ t, getattr self "trace" w' = Some (AttrTrace t)
    ∧ (∃ draws, t !! "int_std" = Some draws ∧ Forall nonneg_draw draws)
    ∧ (∃ draws, t !! "tau" = Some draws ∧ Forall nonneg_draw draws).
Proof.
  intros Hfit.
  destruct (fit_Ok_inv _ _ _ _ _ _ _ _ _ Hfit)
    as (X' & xe' & ya & t & g & HX & Hxe & Hy & Hacc & Hs & -> & ->).
  exists t. split; [apply getattr_store_trace_eq|].
  pose proof (sample_covers _ _ _ _ _ Hs) as Hc.
  pose proof (sample_in_support _ _ _ _ _ Hs) as Hp.
  split.
  - destruct (trace_covers_names _ _ "int_std" Hc) as [draws Hd].
    { rewrite declarations_free_names. set_solver. }
    exists draws. split; [done|].
    eapply (Hp (mk_RV "int_std" HalfFlat [] None)); [|done|done].
    unfold_declarations. set_solver.
  - destruct (trace_covers_names _ _ "tau" Hc) as [draws Hd].
    { rewrite declarations_free_names. set_solver. }
    exists draws. split; [done|].
    eapply (Hp (mk_RV "tau" HalfFlat [hd 0%nat (shape X')] None)); [|done|done].
    unfold_declarations. set_solver.
Qed.

Lemma halfflat_draws_nonneg_witness :
  ∃ t, getattr 7 "trace"
         (fit (E:=zero_engine) 7 X_2x5 y_five y_error_five x_error_2x5
            default_sample_kwargs initial_world).2 = Some (AttrTrace t)
    ∧ (∃ draws, t !! "int_std" = Some draws ∧ Forall nonneg_draw draws)
    ∧ (∃ draws, t !! "tau" = Some draws ∧ Forall nonneg_draw draws).
Proof.
  apply (halfflat_draws_nonneg (E:=zero_engine)
           (EngineContract0:=zero_engine_contract) 7
           X_2x5 y_five y_error_five x_error_2x5 default_sample_kwargs
           initial_world _ 7); reflexivity.
Defined.

(** ** Every call of [fit] *)

Lemma fit_eq_outcome `{E : Engine} (self : loc) (X y y_error x_error : pyobj)
    (kw : kwargs) (w : world) :
  fit self X y y_error x_error kw w
  = fit_outcome self X y y_error x_error kw w.
Proof.
  unfold fit_outcome.
  destruct (np_atleast_2d X) as [X'|e] eqn:HX;
    [|by apply fit_raise_X].
  destruct (np_atleast_2d x_error) as [xe'|e] eqn:Hxe;
    [|by eapply fit_raise_x_error].
  destruct (accepts (requests_before_y X')) as [[]|e] eqn:Hb;
    [|by eapply fit_engine_refuses_before_y].
  destruct y as [q|items|ya].
  - by apply (fit_raise_y self X (PyNum q) y_error x_error kw w _ _ _ HX Hxe Hb).
  - by apply (fit_raise_y self X (PyList items) y_error x_error kw w _ _ _ HX Hxe Hb).
  - destruct (accepts (requests X' (PyNdarray ya) (shape ya) y_error xe')) as [[]|e] eqn:Hacc;
      [|by eapply fit_engine_refuses].
    by apply fit_run.
Qed.










(** ** Coerced inputs *)

Lemma promote_2d_fixed (a : ndarray) : (2 ≤ ndim a)%nat → promote_2d a = a.
Proof.
  destruct a as [[|d [|n rest]] dt]; unfold ndim; simpl; intros; try lia.
  reflexivity.
Qed.

Lemma np_atleast_2d_idem (o : pyobj) (a : ndarray) :
  np_atleast_2d o = Ok a → np_atleast_2d (PyNdarray a) = Ok a.
Proof.
  intros H. destruct (np_atleast_2d_shape _ _ H) as (d & n & rest & Hs).
  unfold np_atleast_2d. simpl. rewrite promote_2d_fixed; [done|].
  unfold ndim. rewrite Hs. simpl. lia.
Qed.

(** X5.  Coercing beforehand changes nothing: an array with at least two
    axes goes through the coercion unchanged, the coercion of a coerced
    input is that input, and [fit] called on the coerced [X] and [x_error]
    is the same run, with the same result and the same final state, as
    [fit] called on the inputs themselves. *)
Theorem fit_on_coerced_inputs `{E : Engine} (self : loc)
    (X y y_error x_error : pyobj) (kw : kwargs) (w : world)
    (X' x_error' : ndarray) :
  np_atleast_2d X = Ok X' →
  np_atleast_2d x_error = Ok x_error' →
  np_atleast_2d (PyNdarray X') = Ok X'
  ∧ np_atleast_2d (PyNdarray x_error') = Ok x_error'
  ∧ (∀ a, (2 ≤ ndim a)%nat → np_atleast_2d (PyNdarray a) = Ok a)
  ∧ fit self (PyNdarray X') y y_error (PyNdarray x_error') kw w
    = fit self X y y_error x_error kw w.
Proof.
  intros HX Hxe.
  pose proof (np_atleast_2d_idem _ _ HX) as HX'.
  pose proof (np_atleast_2d_idem _ _ Hxe) as Hxe'.
  split; [done|]. split; [done|]. split.
  - intros a Ha. unfold np_atleast_2d. simpl. by rewrite promote_2d_fixed.
  - rewrite !fit_eq_outcome. unfold fit_outcome.
    by rewrite HX, Hxe, HX', Hxe'.
Qed.

Lemma fit_on_coerced_inputs_witness :
  let X' := mk_ndarray [1; 5] [1; 2; 3; 4; 5]%Q in
  let x_error' := mk_ndarray [1; 5] (replicate 5 tenth) in
  np_atleast_2d (PyNdarray X') = Ok X'
  ∧ np_atleast_2d (PyNdarray x_error') = Ok x_error'
  ∧ (∀ a, (2 ≤ ndim a)%nat → np_atleast_2d (PyNdarray a) = Ok a)
  ∧ fit (E:=zero_engine) 7 (PyNdarray X') y_five y_error_five (PyNdarray x_error')
      default_sample_kwargs initial_world
    = fit (E:=zero_engine) 7 X_five y_five y_error_five x_error_five
        default_sample_kwargs initial_world.
Proof.
  apply (fit_on_coerced_inputs (E:=zero_engine) 7 X_five y_five y_error_five
           x_error_five default_sample_kwargs initial_world); reflexivity.
Defined.



(** ** A covariate given as a plain list *)

Lemma np_asanyarray_list (items : list pyobj) :
  np_asanyarray (PyList items) = result_bind (convert_all items) stack.
Proof. reflexivity. Qed.






(** ** Scoping *)

(** X8.  The model handed to the sampler is well scoped: the nine names
    are pairwise distinct and the parameters of every declaration mention
    only variables declared before it. *)
Theorem fit_model_well_scoped `{E : Engine} (self : loc)
    (X y y_error x_error : pyobj) (kw : kwargs) (w : world)
    (X' x_error' ya : ndarray) :
  np_atleast_2d X = Ok X' →
  np_atleast_2d x_error = Ok x_error' →
  y = PyNdarray ya →
  accepts (requests X' y (shape ya) y_error x_error') = Ok () →
  ∃ m, fit_samples self X y y_error x_error kw w m
    ∧ well_scoped [] m = true
    ∧ NoDup (rv_name <$> m).
Proof.
  intros HX Hxe Hy Hacc.
  exists (declarations X' y (shape ya) y_error x_error').
  split; [by eapply fit_samples_declarations|].
  split; [reflexivity|].
  unfold_declarations. simpl.
  repeat (apply NoDup_cons_2;
          [rewrite ?elem_of_cons, elem_of_nil; intuition discriminate|]).
  apply NoDup_nil_2.
Qed.

Lemma fit_model_well_scoped_witness :
  ∃ m, fit_samples (E:=zero_engine) 7 X_2x5 y_five y_error_five x_error_2x5
         default_sample_kwargs initial_world m
    ∧ well_scoped [] m = true
    ∧ NoDup (rv_name <$> m).
Proof.
  apply (fit_model_well_scoped (E:=zero_engine) 7 X_2x5 y_five y_error_five
           x_error_2x5 default_sample_kwargs initial_world
           (mk_ndarray [2; 5] [1; 2; 3; 4; 5; 5; 4; 3; 2; 1]%Q)
           (mk_ndarray [2; 5] (replicate 10 tenth))
           (mk_ndarray [5] [21 # 10; 39 # 10; 62 # 10; 78 # 10; 101 # 10]%Q));
    reflexivity.
Defined.

(** ** The mean of the observed covariates *)

(** X9.  The likelihood of the covariates pairs entry (d, i) of [X] with
    entry (i, d) of [ksi].  In the model handed to the sampler, for a
    coerced [X] of shape (D, N), [xi] observes [X] and its mean is
    [ksi.T]; on a [ksi] of N rows of D entries that mean has the shape of
    [X], and its entry (d, i) (at d * N + i in row-major order) is entry
    (i, d) of [ksi] (at i * D + d). *)
Theorem xi_mean_alignment `{E : Engine} (self : loc)
    (X y y_error x_error : pyobj) (kw : kwargs) (w : world)
    (X' x_error' ya : ndarray) (D N : nat) :
  np_atleast_2d X = Ok X' →
  np_atleast_2d x_error = Ok x_error' →
  y = PyNdarray ya →
  accepts (requests X' y (shape ya) y_error x_error') = Ok () →
  shape X' = [D; N] →
  ∃ m, fit_samples self X y y_error x_error kw w m
    ∧ (model_var "xi" m ≫= rv_observed) = Some (PyNdarray X')
    ∧ rv_shape <$> model_var "ksi" m = Some [N; D]
    ∧ ∃ mean, rv_dist <$> model_var "xi" m
              = Some (Normal mean (Some (TConst (PyNdarray x_error'))) None)
        ∧ ∀ (slope inter : ndarray) (k : list Q),
            ∃ a, eval (eta_env slope (mk_ndarray [N; D] k) inter) mean = Some a
               ∧ shape a = shape X'
               ∧ ∀ d i, (d < D)%nat → (i < N)%nat →
                   nth (d * N + i) (data a) 0%Q = nth (i * D + d) k 0%Q.
Proof.
  intros HX Hxe Hy Hacc Hs.
  exists (declarations X' y (shape ya) y_error x_error').
  split; [by eapply fit_samples_declarations|].
  unfold_declarations. rewrite Hs. simpl.
  split; [reflexivity|]. split; [reflexivity|].
  eexists. split; [reflexivity|].
  intros slope inter k. simpl. eexists. split; [reflexivity|].
  split; [reflexivity|].
  intros d i Hd Hi. simpl. by apply nth_transposed.
Qed.

Lemma xi_mean_alignment_witness :
  let X' := mk_ndarray [2; 5] [1; 2; 3; 4; 5; 5; 4; 3; 2; 1]%Q in
  let x_error' := mk_ndarray [2; 5] (replicate 10 tenth) in
  ∃ m, fit_samples (E:=zero_engine) 7 X_2x5 y_five y_error_five x_error_2x5
         default_sample_kwargs initial_world m
    ∧ (model_var "xi" m ≫= rv_observed) = Some (PyNdarray X')
    ∧ rv_shape <$> model_var "ksi" m = Some [5; 2]%nat
    ∧ ∃ mean, rv_dist <$> model_var "xi" m
              = Some (Normal mean (Some (TConst (PyNdarray x_error'))) None)
        ∧ ∀ (slope inter : ndarray) (k : list Q),
            ∃ a, eval (eta_env slope (mk_ndarray [5; 2] k) inter) mean = Some a
               ∧ shape a = shape X'
               ∧ ∀ d i, (d < 2)%nat → (i < 5)%nat →
                   nth (d * 5 + i) (data a) 0%Q = nth (i * 2 + d) k 0%Q.
Proof.
  apply (xi_mean_alignment (E:=zero_engine) 7 X_2x5 y_five y_error_five
           x_error_2x5 default_sample_kwargs initial_world
           (mk_ndarray [2; 5] [1; 2; 3; 4; 5; 5; 4; 3; 2; 1]%Q)
           (mk_ndarray [2; 5] (replicate 10 tenth))
           (mk_ndarray [5] [21 # 10; 39 # 10; 62 # 10; 78 # 10; 101 # 10]%Q)
           2 5); reflexivity.
Defined.

(** ** Well-formed arrays stay well formed *)

Lemma length_concat_const {A} (ls : list (list A)) (n : nat) :
  Forall (λ l, length l = n) ls → length (concat ls) = (length ls * n)%nat.
Proof.
  induction 1 as [|l ls Hl _ IH]; [reflexivity|].
  simpl. rewrite length_app, IH, Hl. reflexivity.
Qed.

Lemma stack_wf (parts : list ndarray) (a : ndarray) :
  Forall wf_array parts → stack parts = Ok a → wf_array a.
Proof.
  intros Hwf. unfold stack. destruct parts as [|p ps]; [by intros [= <-]|].
  destruct (forallb _ _) eqn:Hall; [|discriminate]. intros [= <-].
  unfold wf_array. cbn [shape data].
  change (data p ++ concat (map data ps))%list with (concat (map data (p :: ps))).
  rewrite (length_concat_const _ (size (shape p)));
    [by rewrite length_map|].
  apply Forall_fmap, Forall_forall. intros q Hq.
  rewrite forallb_forall in Hall. specialize (Hall q).
  rewrite <- list_elem_of_In in Hall. specialize (Hall Hq).
  unfold same_shape in Hall. apply bool_decide_eq_true in Hall.
  rewrite Forall_forall in Hwf. specialize (Hwf q Hq).
  simpl. unfold wf_array in Hwf. by rewrite Hwf, Hall.
Qed.

Lemma np_asanyarray_wf (o : pyobj) (a : ndarray) :
  wf_pyobj o → np_asanyarray o = Ok a → wf_array a.
Proof.
  revert o a. fix IH 1. intros [x|items|b] a Hwf.
  - intros [= <-]. reflexivity.
  - rewrite np_asanyarray_list.
    destruct (convert_all items) as [parts|e] eqn:Hc; [|discriminate].
    simpl. apply stack_wf. clear a.
    revert parts Hc. induction items as [|i items IHi]; intros parts.
    + intros [= <-]. constructor.
    + change (convert_all (i :: items))
        with (result_bind (np_asanyarray i) (λ a,
              result_bind (convert_all items) (λ r, Ok (a :: r)))).
      destruct Hwf as [Hi Hrest].
      destruct (np_asanyarray i) as [ai|e] eqn:Hai; [|discriminate]. simpl.
      destruct (convert_all items) as [r|e] eqn:Hr; [|discriminate].
      intros [= <-]. constructor; [by apply (IH i)|by apply IHi].
  - simpl. intros [= <-]. exact Hwf.
Qed.

Lemma promote_2d_wf (a : ndarray) : wf_array a → wf_array (promote_2d a).
Proof.
  unfold wf_array, promote_2d.
  destruct a as [[|d [|n rest]] dt]; simpl; lia.
Qed.

(** X10.  Coercion keeps arrays well formed.  When every array inside the
    inputs has as many entries as its shape says, so have the coerced [X]
    and [x_error], which have at least two axes; these are the arrays the
    model handed to the sampler observes for [xi] and takes as its
    standard deviation. *)
Theorem coerced_inputs_well_formed `{E : Engine} (self : loc)
    (X y y_error x_error : pyobj) (kw : kwargs) (w : world)
    (X' x_error' ya : ndarray) :
  wf_pyobj X →
  wf_pyobj x_error →
  np_atleast_2d X = Ok X' →
  np_atleast_2d x_error = Ok x_error' →
  y = PyNdarray ya →
  accepts (requests X' y (shape ya) y_error x_error') = Ok () →
  length (data X') = size (shape X')
  ∧ length (data x_error') = size (shape x_error')
  ∧ (2 ≤ ndim X' ∧ 2 ≤ ndim x_error')%nat
  ∧ ∃ m, fit_samples self X y y_error x_error kw w m
      ∧ (model_var "xi" m ≫= rv_observed) = Some (PyNdarray X')
      ∧ rv_dist <$> model_var "xi" m
        = Some (Normal (TT (TRV "ksi")) (Some (TConst (PyNdarray x_error'))) None).
Proof.
  intros HwX Hwxe HX Hxe Hy Hacc.
  destruct (np_atleast_2d_inv _ _ HX) as (a & Ha & ->).
  destruct (np_atleast_2d_inv _ _ Hxe) as (b & Hb & ->).
  split; [apply promote_2d_wf, (np_asanyarray_wf X); done|].
  split; [apply promote_2d_wf, (np_asanyarray_wf x_error); done|].
  split.
  { destruct (promote_2d_shape a) as (d & n & rest & Hs).
    destruct (promote_2d_shape b) as (d' & n' & rest' & Hs').
    unfold ndim. rewrite Hs, Hs'. simpl. lia. }
  exists (declarations (promote_2d a) y (shape ya) y_error (promote_2d b)).
  split; [by eapply fit_samples_declarations|].
  destruct (promote_2d_shape a) as (d & n & rest & Hs).
  unfold_declarations. rewrite Hs. simpl. split; reflexivity.
Qed.

Lemma coerced_inputs_well_formed_witness :
  let X' := mk_ndarray [1; 5] [1; 2; 3; 4; 5]%Q in
  let x_error' := mk_ndarray [2; 5] (replicate 10 tenth) in
  length (data X') = size (shape X')
  ∧ length (data x_error') = size (shape x_error')
  ∧ (2 ≤ ndim X' ∧ 2 ≤ ndim x_error')%nat
  ∧ ∃ m, fit_samples (E:=zero_engine) 7 X_five y_five y_error_five x_error_2x5
           default_sample_kwargs initial_world m
      ∧ (model_var "xi" m ≫= rv_observed) = Some (PyNdarray X')
      ∧ rv_dist <$> model_var "xi" m
        = Some (Normal (TT (TRV "ksi")) (Some (TConst (PyNdarray x_error'))) None).
Proof.
  apply (coerced_inputs_well_formed (E:=zero_engine) 7 X_five y_five
           y_error_five x_error_2x5 default_sample_kwargs initial_world
           (mk_ndarray [1; 5] [1; 2; 3; 4; 5]%Q)
           (mk_ndarray [2; 5] (replicate 10 tenth))
           (mk_ndarray [5] [21 # 10; 39 # 10; 62 # 10; 78 # 10; 101 # 10]%Q));
    first [reflexivity | vm_compute; tauto].
Defined.
